(** * CausalityAgent: the request handlers of [causality_module.py]

    A shallow embedding of the relation vocabulary, the view builder
    [make_indra_json] and the correlation cursor of the CausalA bioagent,
    together with the properties its specification states about them. *)

From stdpp Require Import gmap strings list fin_maps.
From Stdlib Require Import Ascii String.

Local Open Scope string_scope.

(** ** Python strings *)

Module PyStr.

(** [str.upper()] on the ASCII range, in which every relation name of the
    module lives. *)
Definition upper_ascii (c : ascii) : ascii :=
  let n := nat_of_ascii c in
  if (97 <=? n)%nat && (n <=? 122)%nat then ascii_of_nat (n - 32) else c.

Fixpoint upper (s : string) : string :=
  match s with
  | EmptyString => EmptyString
  | String c s' => String (upper_ascii c) (upper s')
  end.

(** [sub in s]: does [sub] occur in [s] as a contiguous substring. *)
Fixpoint contains (sub s : string) : bool :=
  String.prefix sub s ||
  match s with
  | EmptyString => false
  | String _ s' => contains sub s'
  end.

End PyStr.

(** ** Results of Python computations *)

Inductive exn : Set :=
| KeyError (key : string)
| IndexError.

Inductive outcome (A : Type) : Type :=
| Ok (a : A)
| Raise (e : exn).
Arguments Ok {A} a.
Arguments Raise {A} e.

(** ** Causality records

    The dictionaries [CausalityAgent] hands to the module: "id1 rel id2",
    each side with its modification sites, and the Pathway Commons URIs of
    the assertion. *)

Record ModSite := { residue : string; position : string }.

Record causality := {
  id1 : string;
  mods1 : list ModSite;
  id2 : string;
  mods2 : list ModSite;
  rel : string;
  uri_str : string
}.

(** [causality['rel'] = v] *)
Definition set_rel (v : string) (c : causality) : causality :=
  {| id1 := id1 c; mods1 := mods1 c; id2 := id2 c; mods2 := mods2 c;
     rel := v; uri_str := uri_str c |}.

(** ** The relation vocabulary

    [rel_map] of [respond_find_causality_target] (the causal source is given
    and its targets are asked for). *)
Definition target_rel_map : gmap string string :=
  list_to_map
    [ ("phosphorylation", "phosphorylates");
      ("dephosphorylation", "dephosphorylates");
      ("activate", "upregulates-expression");
      ("increase", "upregulates-expression");
      ("inhibit", "downregulates-expression");
      ("decrease", "downregulates-expression");
      ("modulate", "modulates") ].

(** [rel_map] of [respond_find_causality_source] (the causal target is given
    and its sources are asked for). *)
Definition source_rel_map : gmap string string :=
  list_to_map
    [ ("phosphorylation", "is-phosphorylated-by");
      ("dephosphorylation", "is-dephosphorylated-by");
      ("activate", "expression-is-up");
      ("increase", "upregulates-expression");
      ("inhibit", "downregulates-expression");
      ("decrease", "downregulates-expression");
      ("modulate", "modulates") ].

(** [rel_map[rel]], where [rel] is what [content.gets('TYPE')] returned:
    [None] of Python is no key of the table either. *)
Definition rel_lookup (m : gmap string string) (rel : option string)
  : option string :=
  match rel with
  | Some verb => m !! verb
  | None => None
  end.

(** ** The INDRA view *)

Definition indra_relation_pairs : list (string * string) :=
  [ ("PHOSPHORYLATES", "Phosphorylation");
    ("IS-PHOSPHORYLATED-BY", "Phosphorylation");
    ("IS-DEPHOSPHORYLATED-BY", "Dephosphorylation");
    ("UPREGULATES-EXPRESSION", "IncreaseAmount");
    ("EXPRESSION-IS-UPREGULATED-BY", "IncreaseAmount");
    ("DOWNREGULATES-EXPRESSION", "DecreaseAmount");
    ("EXPRESSION-IS-DOWNREGULATED-BY", "DecreaseAmount") ].

Definition indra_relation_map : gmap string string :=
  list_to_map indra_relation_pairs.

(** The dictionary [make_indra_json] builds.  Its subject and object entries
    sit under keys computed from the relation ('enz'/'sub' or 'subj'/'obj'),
    so the keys are fields of the view. *)
Record indra_agent := { name : string; mods : list ModSite }.

Record indra_json := {
  type : string;
  subj_key : string;
  subj : indra_agent;
  obj_key : string;
  obj_name : string;
  view_residue : string;
  view_position : string
}.

(** [causality['id%s' % s]] and [causality['mods%s' % s]] for [s] one of
    '1' and '2'. *)
Inductive side := side1 | side2.

Definition id_of (s : side) (c : causality) : string :=
  match s with side1 => id1 c | side2 => id2 c end.

Definition mods_of (s : side) (c : causality) : list ModSite :=
  match s with side1 => mods1 c | side2 => mods2 c end.

(** The sides line 515 selects for a relation name: the subject is side 2
    and the object side 1 when 'IS' occurs in the name, the other way round
    otherwise. *)
Definition subject_side (R : string) : side :=
  if PyStr.contains "IS" R then side2 else side1.

Definition object_side (R : string) : side :=
  if PyStr.contains "IS" R then side1 else side2.

(** [make_indra_json] writes the upper-cased relation into the dictionary it
    was given before anything else, so the function returns the dictionary
    as the caller finds it afterwards, next to the view or the exception. *)
Definition make_indra_json (causality0 : causality)
  : causality * outcome indra_json :=
  let causality := set_rel (PyStr.upper (rel causality0)) causality0 in
  match indra_relation_map !! rel causality with
  | None => (causality, Raise (KeyError (rel causality)))
  | Some rel_type =>
      let '(s, t) :=
        if PyStr.contains "IS" (rel causality)
        then (side2, side1) else (side1, side2) in
      let '(subj, obj) :=
        if PyStr.contains "PHOSPHO" (rel causality)
        then ("enz", "sub") else ("subj", "obj") in
      match mods_of t causality with
      | [] => (causality, Raise IndexError)
      | m :: _ =>
          (causality,
           Ok {| type := rel_type;
                 subj_key := subj;
                 subj := {| name := id_of s causality;
                            mods := mods_of s causality |};
                 obj_key := obj;
                 obj_name := id_of t causality;
                 view_residue := residue m;
                 view_position := position m |})
      end
  end.

(** ** KQML requests

    What the handlers read of a request through pykqml: the arguments
    [content.get] finds under a keyword, and the strings [content.gets]
    decodes.  An entity argument is a [KQMLList]: one agent (its first datum
    is not a list) or a list of agents, each carrying its [:NAME]. *)

Inductive kqml_arg :=
| KQMLAgent (agent_name : string)
| KQMLAgents (data : list string).

Record Content := {
  SOURCE : option kqml_arg;
  TARGET : option kqml_arg;
  TYPE : option string;
  DIRECTION : option string
}.

(** [not kqmlList]: [None], or a [KQMLList] of length 0. *)
Definition falsy_arg (a : option kqml_arg) : bool :=
  match a with
  | None => true
  | Some (KQMLAgents []) => true
  | Some _ => false
  end.

Definition _get_kqml_names (kqmlList : option kqml_arg)
  : option (list string) :=
  if falsy_arg kqmlList then None
  else match kqmlList with
       | None => None
       | Some (KQMLAgents arr) => Some arr
       | Some (KQMLAgent n) => Some [n]
       end.

(** ** Replies *)

Inductive reply :=
| FAILURE (reason : string)
| SUCCESS
| SUCCESS_paths (paths : list indra_json)
| SUCCESS_correlation (target correlation explainable : string).

Definition make_failure (reason : string) : reply := FAILURE reason.

(** The 'add-provenance' message of [send_provenance]. *)
Record provenance := { html : string; pc : string; title : string }.

(** ** The causality agent

    [self.CA], of the class [CausalityAgent]: [causality_agent.py] is not
    part of the sources at hand.  Its graph queries and its correlation
    tables are deterministic reads of a knowledge store, and the fields of
    the record below; its cursor over the correlation tables is modelled
    further down. *)

Record entity := { id : string; pSite : string }.

Record path_query := {
  source : entity;
  target : entity;
  direction : option string
}.

Record targets_query := {
  query_id : string;
  query_pSite : string;
  query_rel : string
}.

(** The correlation values are floats the module only prints: their type is
    a parameter, and so is Python's [str] on it. *)
Record CorrelationRecord {Float : Type} := {
  corr_source : string;
  corr_target : string;
  corr_value : Float
}.
Arguments CorrelationRecord : clear implicits.

Record CausalityAgent {Float : Type} := {
  find_causality : path_query -> option causality;
  find_causality_targets : targets_query -> list causality;
  correlation_table : string -> list (CorrelationRecord Float)
}.
Arguments CausalityAgent : clear implicits.

(** What [find_next_correlation] returns for a record: the handler reads its
    'id2', 'correlation' and 'explainable'. *)
Record ExplainedCorrelation {Float : Type} := {
  res_id2 : string;
  res_correlation : Float;
  res_explainable : string
}.
Arguments ExplainedCorrelation : clear implicits.

(** '' when the cursor is exhausted, the dictionary otherwise. *)
Inductive next_correlation {Float : Type} :=
| Exhausted
| Next (res : ExplainedCorrelation Float).
Arguments next_correlation : clear implicits.

(** ** The world of a handler

    The cursor offsets of the agent, and what the handler did to the
    outside: its calls into the agent and the messages it sent. *)

Inductive event :=
| CA_find_causality (q : path_query)
| CA_find_causality_targets (q : targets_query)
| CA_find_next_correlation (gene : string)
| CA_reset_indices
| send (msg : provenance).

Record World := {
  corr_ind : gmap string nat;
  trace : list event
}.

Definition M (A : Type) : Type := World -> World * outcome A.

Definition ret {A} (a : A) : M A := fun w => (w, Ok a).

Definition bind {A B} (m : M A) (k : A -> M B) : M B :=
  fun w =>
    match m w with
    | (w', Ok a) => k a w'
    | (w', Raise e) => (w', Raise e)
    end.

(** The world after the events [evs] took place in [w]. *)
Definition logged (w : World) (evs : list event) : World :=
  {| corr_ind := corr_ind w; trace := trace w ++ evs |}.

Definition log (e : event) : M unit := fun w => (logged w [e], Ok tt).

Definition lift {A} (r : outcome A) : M A := fun w => (w, r).

Notation "x <- m ;; k" := (bind m (fun x => k))
  (at level 100, m at next level, right associativity).
Notation "m ;;; k" := (bind m (fun _ => k))
  (at level 100, right associativity).

(** [for x in l: f(x)] *)
Fixpoint for_each {A} (f : A -> M unit) (l : list A) : M unit :=
  match l with
  | [] => ret tt
  | x :: l' => f x ;;; for_each f l'
  end.

(** The message [send_provenance] builds from a causality record, and its
    sending. *)
Definition add_provenance (result : causality) : provenance :=
  let title := id1 result +:+ " " +:+ rel result +:+ " " +:+ id2 result in
  let uri_str := uri_str result in
  let pc_url :=
    "http://www.pathwaycommons.org/pc2/get?" +:+ uri_str +:+ "format=SBGN" in
  let html :=
    "<a href= '" +:+ pc_url +:+ "' target= '_blank' > PC link</a>" in
  let pc_url_formatted :=
    "http://www.pathwaycommons.org/pc2/get?" +:+ uri_str +:+ "format=SBGN" in
  {| html := html; pc := pc_url_formatted; title := title |}.

Definition send_provenance (result : causality) : M unit :=
  log (send (add_provenance result)).

(** [[make_indra_json(r) for r in result]]: the dictionaries are rewritten
    one after the other, up to and including the one that raises. *)
Fixpoint make_indra_json_all (result : list causality)
  : list causality * outcome (list indra_json) :=
  match result with
  | [] => ([], Ok [])
  | r :: rest =>
      match make_indra_json r with
      | (r', Raise e) => (r' :: rest, Raise e)
      | (r', Ok j) =>
          match make_indra_json_all rest with
          | (rest', Raise e) => (r' :: rest', Raise e)
          | (rest', Ok js) => (r' :: rest', Ok (j :: js))
          end
      end
  end.

Section CausalityModule.

Context {Float : Type}.
Variable str : Float -> string.
Variable CA : CausalityAgent Float.

(** Calling the agent leaves a mark in the trace. *)
Definition CA_call_find_causality (q : path_query)
  : M (option causality) :=
  log (CA_find_causality q) ;;; ret (find_causality CA q).

Definition CA_call_find_causality_targets (q : targets_query)
  : M (list causality) :=
  log (CA_find_causality_targets q) ;;; ret (find_causality_targets CA q).

(** Modelled from the spec: the classification of a correlation record
    inside [CausalityAgent.find_next_correlation], of the absent
    [causality_agent.py]: a path from the source to the record's target is
    resolved in either direction (the absent direction, with no relation
    filter), and the record is explainable when one is found.  The tests
    read the flag as 'explainable' or 'unexplainable'. *)
Definition explainable_flag (gene target_name : string) : string :=
  match find_causality CA
          {| source := {| id := gene; pSite := "" |};
             target := {| id := target_name; pSite := "" |};
             direction := None |} with
  | Some _ => "explainable"
  | None => "unexplainable"
  end.

(** Modelled from the spec: the explained correlation built from a record
    of the table, in the shape the handler reads. *)
Definition explain (gene : string) (r : CorrelationRecord Float)
  : ExplainedCorrelation Float :=
  {| res_id2 := corr_target r;
     res_correlation := corr_value r;
     res_explainable := explainable_flag gene (corr_target r) |}.

(** Modelled from the spec: [CausalityAgent.find_next_correlation], of the
    absent [causality_agent.py].  The offset stored for the source (0 when
    absent) selects the record of its correlation table; past the end the
    cursor is exhausted and nothing is stored.  Otherwise the offset grows
    by one, whatever the classification, and the explained record is
    returned. *)
Definition find_next_correlation (gene : string) (ind : gmap string nat)
  : gmap string nat * next_correlation Float :=
  let offset := default 0%nat (ind !! gene) in
  match correlation_table CA gene !! offset with
  | None => (ind, Exhausted)
  | Some r => (<[gene := S offset]> ind, Next (explain gene r))
  end.

Definition CA_call_find_next_correlation (gene : string)
  : M (next_correlation Float) :=
  log (CA_find_next_correlation gene) ;;;
  fun w =>
    let '(ind, res) := find_next_correlation gene (corr_ind w) in
    ({| corr_ind := ind; trace := trace w |}, Ok res).

(** *** The handlers *)

Definition respond_find_causal_path (content : Content) : M reply :=
  let source_arg := SOURCE content in
  let target_arg := TARGET content in
  let direction := DIRECTION content in
  if falsy_arg source_arg || falsy_arg target_arg
  then ret (make_failure "MISSING_MECHANISM")
  else
    let target_names := _get_kqml_names target_arg in
    let source_names := _get_kqml_names source_arg in
    match target_names, source_names with
    | Some (target_name :: _), Some (source_name :: _) =>
        let target := {| id := target_name; pSite := "" |} in
        let source := {| id := source_name; pSite := "" |} in
        result <- CA_call_find_causality
                    {| source := source; target := target;
                       direction := direction |} ;;
        match result with
        | None => ret (make_failure "NO_PATH_FOUND")
        | Some result =>
            let '(result, indra_json) := make_indra_json result in
            indra_json <- lift indra_json ;;
            send_provenance result ;;;
            ret (SUCCESS_paths [indra_json])
        end
    | _, _ => ret (make_failure "NO_PATH_FOUND")
    end.

Definition respond_find_causality_target (content : Content) : M reply :=
  let target_arg := SOURCE content in
  let rel := TYPE content in
  if falsy_arg target_arg then ret (make_failure "MISSING_MECHANISM")
  else
    match _get_kqml_names target_arg with
    | None | Some [] => ret (make_failure "MISSING_MECHANISM")
    | Some (target_name :: _) =>
        match rel_lookup target_rel_map rel with
        | None => ret (make_failure "MISSING_MECHANISM")
        | Some rel_verb =>
            let target := {| query_id := target_name; query_pSite := " ";
                             query_rel := rel_verb |} in
            result <- CA_call_find_causality_targets target ;;
            match result with
            | [] => ret (make_failure "NO_PATH_FOUND")
            | _ =>
                for_each send_provenance result ;;;
                indra_json <- lift (snd (make_indra_json_all result)) ;;
                ret (SUCCESS_paths indra_json)
            end
        end
    end.

Definition respond_find_causality_source (content : Content) : M reply :=
  let source_arg := TARGET content in
  let rel := TYPE content in
  if falsy_arg source_arg then ret (make_failure "MISSING_MECHANISM")
  else
    match _get_kqml_names source_arg with
    | None | Some [] => ret (make_failure "MISSING_MECHANISM")
    | Some (source_name :: _) =>
        match rel_lookup source_rel_map rel with
        | None => ret (make_failure "MISSING_MECHANISM")
        | Some rel_verb =>
            let source := {| query_id := source_name; query_pSite := " ";
                             query_rel := rel_verb |} in
            result <- CA_call_find_causality_targets source ;;
            match result with
            | [] => ret (make_failure "NO_PATH_FOUND")
            | _ =>
                for_each send_provenance result ;;;
                indra_json <- lift (snd (make_indra_json_all result)) ;;
                ret (SUCCESS_paths indra_json)
            end
        end
    end.

Definition respond_dataset_correlated_entity (content : Content)
  : M reply :=
  let source_arg := SOURCE content in
  if falsy_arg source_arg then ret (make_failure "MISSING_MECHANISM")
  else
    match _get_kqml_names source_arg with
    | None | Some [] => ret (make_failure "MISSING_MECHANISM")
    | Some (source_name :: _) =>
        res <- CA_call_find_next_correlation source_name ;;
        match res with
        | Exhausted => ret (make_failure "NO_PATH_FOUND")
        | Next res =>
            ret (SUCCESS_correlation (res_id2 res)
                   (str (res_correlation res)) (res_explainable res))
        end
    end.

End CausalityModule.

(** Modelled from the spec: [CausalityAgent.reset_indices], of the absent
    [causality_agent.py], called without a source: every stored offset is
    cleared. *)
Definition reset_indices (ind : gmap string nat) : gmap string nat := ∅.

Definition CA_call_reset_indices : M unit :=
  log CA_reset_indices ;;;
  fun w =>
    ({| corr_ind := reset_indices (corr_ind w); trace := trace w |}, Ok tt).

Definition respond_reset_causality_indices (content : Content) : M reply :=
  CA_call_reset_indices ;;;
  ret SUCCESS.

(** The module as it starts: no offset stored, nothing done yet. *)
Definition initial_world : World := {| corr_ind := ∅; trace := [] |}.

(** A handler serving the requests of a list one after the other; a request
    that raises leaves the module running in the world it reached. *)
Fixpoint serve (handler : Content -> M reply) (requests : list Content)
  (w : World) : World * list (outcome reply) :=
  match requests with
  | [] => (w, [])
  | content :: rest =>
      let '(w', r) := handler content w in
      let '(w'', rs) := serve handler rest w' in
      (w'', r :: rs)
  end.

(** ** A small knowledge store

    The entities of the test-suite, with floats kept as their decimal
    text. *)

Definition mk_causality (a r b : string) (m1 m2 : list ModSite) : causality :=
  {| id1 := a; mods1 := m1; id2 := b; mods2 := m2; rel := r;
     uri_str := "uri=" +:+ a +:+ "_" +:+ b +:+ "&" |}.

Definition demo_edges : list causality :=
  [ mk_causality "MAPK1" "PHOSPHORYLATES" "JUND" []
      [ {| residue := "S"; position := "100" |} ];
    mk_causality "MAPK1" "PHOSPHORYLATES" "CREB1" []
      [ {| residue := "S"; position := "133" |};
        {| residue := "T"; position := "200" |} ];
    mk_causality "MAPK1" "MODULATES" "RPTOR" [] [];
    mk_causality "MAPK1" "UPREGULATES-EXPRESSION" "FOS" [] [];
    mk_causality "MAPK1" "DEPHOSPHORYLATES" "ELK1" []
      [ {| residue := "S"; position := "383" |} ];
    mk_causality "BRAF" "IS-PHOSPHORYLATED-BY" "NRAS"
      [ {| residue := "S"; position := "601" |} ] [];
    mk_causality "BRAF" "EXPRESSION-IS-UP" "MITF" [] [];
    mk_causality "BRAF" "MODULATES" "RAF1" [] [];
    mk_causality "AKT1" "PHOSPHORYLATES" "BRAF" []
      [ {| residue := "S"; position := "365" |} ];
    mk_causality "PTPN1" "DEPHOSPHORYLATES" "AKT1" []
      [ {| residue := "T"; position := "308" |} ] ].

Definition demo_find_causality_targets (q : targets_query) : list causality :=
  filter (fun e => id1 e = query_id q
                   ∧ rel e = PyStr.upper (query_rel q)) demo_edges.

Definition demo_find_causality (q : path_query) : option causality :=
  let a := id (source q) in
  let b := id (target q) in
  head (filter (fun e => (id1 e = a ∧ id2 e = b) ∨ (id1 e = b ∧ id2 e = a))
          demo_edges).

Definition demo_correlation_table (gene : string)
  : list (CorrelationRecord string) :=
  if String.eqb gene "AKT1" then
    [ {| corr_source := "AKT1"; corr_target := "BRAF";
         corr_value := "0.7610843243760473" |};
      {| corr_source := "AKT1"; corr_target := "PTPN1";
         corr_value := "0.581061418186" |};
      {| corr_source := "AKT1"; corr_target := "AGPS";
         corr_value := "0.94999636806" |} ]
  else [].

Definition demo_CA : CausalityAgent string :=
  {| find_causality := demo_find_causality;
     find_causality_targets := demo_find_causality_targets;
     correlation_table := demo_correlation_table |}.

Definition request (src tgt : option string) (ty : option string) : Content :=
  {| SOURCE := KQMLAgent <$> src; TARGET := KQMLAgent <$> tgt;
     TYPE := ty; DIRECTION := None |}.

(** Modelled from the spec: what target and source discovery returns, of the
    absent [causality_agent.py]: every edge handed back carries the relation
    that was asked for (in whatever letter case the store keeps it). *)
Definition answers_requested_relation {Float} (CA : CausalityAgent Float)
  : Prop :=
  forall q r, r ∈ find_causality_targets CA q ->
    PyStr.upper (rel r) = PyStr.upper (query_rel q).

(** What a discovery handler does once the entity and the verb are known:
    one query of the agent, then one provenance message per edge, then the
    views. *)
Definition discovery_run {Float} (CA : CausalityAgent Float)
  (q : targets_query) (w : World) : World * outcome reply :=
  match find_causality_targets CA q with
  | [] => (logged w [CA_find_causality_targets q],
           Ok (make_failure "NO_PATH_FOUND"))
  | result =>
      (logged w (CA_find_causality_targets q
                 :: map (fun r => send (add_provenance r)) result),
       match snd (make_indra_json_all result) with
       | Ok js => Ok (SUCCESS_paths js)
       | Raise e => Raise e
       end)
  end.

(** [k] calls of [find_next_correlation] for one source, one after the
    other, with nothing else touching the offsets in between. *)
Fixpoint next_correlations {Float} (CA : CausalityAgent Float)
  (gene : string) (k : nat) (ind : gmap string nat)
  : gmap string nat * list (next_correlation Float) :=
  match k with
  | O => (ind, [])
  | S k' =>
      let '(ind', res) := find_next_correlation CA gene ind in
      let '(ind'', rest) := next_correlations CA gene k' ind' in
      (ind'', res :: rest)
  end.

(** The reply [respond_dataset_correlated_entity] makes of what the agent
    returned. *)
Definition correlation_reply {Float} (str : Float -> string)
  (res : next_correlation Float) : reply :=
  match res with
  | Exhausted => make_failure "NO_PATH_FOUND"
  | Next res =>
      SUCCESS_correlation (res_id2 res) (str (res_correlation res))
        (res_explainable res)
  end.

(** ** The lookup handlers

    The handlers of the module that ask the agent one question and wrap the
    answer; they send nothing and keep nothing. *)

(** [str.lower()] on the ASCII range, and [str.replace(old, new)] for an
    [old] and a [new] of one character each. *)
Definition lower_ascii (c : ascii) : ascii :=
  let n := nat_of_ascii c in
  if (65 <=? n)%nat && (n <=? 90)%nat then ascii_of_nat (n + 32) else c.

Fixpoint str_lower (s : string) : string :=
  match s with
  | EmptyString => EmptyString
  | String c s' => String (lower_ascii c) (str_lower s')
  end.

Fixpoint str_replace_char (old new : ascii) (s : string) : string :=
  match s with
  | EmptyString => EmptyString
  | String c s' =>
      String (if Ascii.eqb c old then new else c)
        (str_replace_char old new s')
  end.

Definition _sanitize_disase_name (name : string) : string :=
  str_lower (str_replace_char "-" " " name).

(** What the lookup handlers read of a request: the entity arguments under
    GENE, GENES and DISEASE, and for the handler that takes plain names the
    value found under GENES, a string or a list of names. *)
Inductive plain_names :=
| PlainStr (s : string)
| PlainList (names : list string).

Record LookupContent := {
  GENE : option kqml_arg;
  GENES : option kqml_arg;
  DISEASE : option kqml_arg;
  GENES_plain : option plain_names
}.

(** [not gene_names] for the plain value: [None], '' and []. *)
Definition falsy_plain (v : option plain_names) : bool :=
  match v with
  | None => true
  | Some (PlainStr s) => String.eqb s ""
  | Some (PlainList []) => true
  | Some (PlainList _) => false
  end.

(** [not result] for an answer that is a text or nothing. *)
Definition nonempty (o : option string) : option string :=
  match o with
  | Some s => if String.eqb s "" then None else Some s
  | None => None
  end.

(** INDRA agents, as far as the module builds them: a name and the database
    references. *)
Record Agent := { Agent_name : string; db_refs : gmap string string }.

(** [indra.databases.hgnc_client], an outside table of identifiers. *)
Record hgnc_client := {
  get_hgnc_id : string -> option string;
  get_uniprot_id : string -> option string
}.

Record mutex_group {Float : Type} := {
  score : Float;
  group : list string
}.
Arguments mutex_group : clear implicits.

(** The other questions the module asks [self.CA]. *)
Record LookupAgent {Float : Type} := {
  get_tcga_abbr : string -> option string;
  find_mutation_significance : string -> string -> option string;
  find_mutex : string -> string -> list (mutex_group Float);
  find_common_upstreams : list string -> list string;
  find_most_likely_cellular_location : list string -> list string;
  find_gene_summary : string -> string
}.
Arguments LookupAgent : clear implicits.

Inductive lookup_reply {Float : Type} :=
| Plain (r : reply)
| SUCCESS_upstreams (upstreams : list Agent)
| SUCCESS_mutsig (mutsig : string)
| SUCCESS_mutex (mutex : list (mutex_group Float))
| SUCCESS_components (components : list Agent)
| SUCCESS_geneSummary (geneSummary : string).
Arguments lookup_reply : clear implicits.

(** A handler either replies or stops on a name Python cannot resolve. *)
Inductive lookup_outcome {Float : Type} :=
| Replies (r : lookup_reply Float)
| NameError (name : string).
Arguments lookup_outcome : clear implicits.

Definition _get_agent_from_gene_name (hgnc : hgnc_client)
  (gene_name : string) : Agent :=
  let db_refs : gmap string string := ∅ in
  let db_refs :=
    match nonempty (get_hgnc_id hgnc gene_name) with
    | Some hgnc_id =>
        let db_refs := <["HGNC" := hgnc_id]> db_refs in
        match nonempty (get_uniprot_id hgnc hgnc_id) with
        | Some uniprot_id => <["UP" := uniprot_id]> db_refs
        | None => db_refs
        end
    | None => db_refs
    end in
  {| Agent_name := gene_name; db_refs := db_refs |}.

Definition _get_genes_cljson (hgnc : hgnc_client) (gene_names : list string)
  : list Agent :=
  map (fun n => _get_agent_from_gene_name hgnc n) gene_names.

Definition _get_default_list_cljson (names : list string) : list Agent :=
  map (fun n => {| Agent_name := n; db_refs := ∅ |}) names.

(** The loop of [respond_find_mutex] that rebuilds the groups of the answer
    one by one, and the genes of each group one by one. *)
Definition reorganize_mutex {Float} (result : list (mutex_group Float))
  : list (mutex_group Float) :=
  fold_left
    (fun mutex r =>
       let genes := fold_left (fun genes gene => genes ++ [gene])%list
                      (group r) [] in
       (mutex ++ [ {| score := score r; group := genes |} ])%list)
    result [].

Section LookupHandlers.

Context {Float : Type}.
Variable hgnc : hgnc_client.
Variable CA : LookupAgent Float.

Definition respond_find_common_upstreams (content : LookupContent)
  : lookup_reply Float :=
  let genes_arg := GENES content in
  if falsy_arg genes_arg then Plain (make_failure "MISSING_MECHANISM")
  else
    match _get_kqml_names genes_arg with
    | None | Some [] => Plain (make_failure "MISSING_MECHANISM")
    | Some gene_names =>
        match find_common_upstreams CA gene_names with
        | [] => Plain (make_failure "NO_UPSTREAM_FOUND")
        | result => SUCCESS_upstreams (_get_genes_cljson hgnc result)
        end
    end.

(** The failure built for a missing gene is not returned (line 255): the
    handler goes on to the names. *)
Definition respond_find_mutation_significance (content : LookupContent)
  : lookup_reply Float :=
  let gene_arg := GENE content in
  let _ := if falsy_arg gene_arg
           then Some (make_failure "MISSING_MECHANISM") else None in
  match _get_kqml_names gene_arg with
  | None | Some [] => Plain (make_failure "MISSING_MECHANISM")
  | Some (gene_name :: _) =>
      let disease_arg := DISEASE content in
      if falsy_arg disease_arg then Plain (make_failure "MISSING_MECHANISM")
      else
        match _get_kqml_names disease_arg with
        | None | Some [] => Plain (make_failure "INVALID_DISEASE")
        | Some (disease_name0 :: _) =>
            let disease_name := _sanitize_disase_name disease_name0 in
            match get_tcga_abbr CA disease_name with
            | None => Plain (make_failure "INVALID_DISEASE")
            | Some disease_abbr =>
                match nonempty
                        (find_mutation_significance CA gene_name
                           disease_abbr) with
                | None => Plain (make_failure "MISSING_MECHANISM")
                | Some result => SUCCESS_mutsig result
                end
            end
        end
  end.

Definition respond_find_mutex (content : LookupContent)
  : lookup_reply Float :=
  let gene_arg := GENE content in
  if falsy_arg gene_arg then Plain (make_failure "MISSING_MECHANISM")
  else
    match _get_kqml_names gene_arg with
    | None | Some [] => Plain (make_failure "MISSING_MECHANISM")
    | Some (gene_name :: _) =>
        let disease_arg := DISEASE content in
        if falsy_arg disease_arg
        then Plain (make_failure "MISSING_MECHANISM")
        else
          match _get_kqml_names disease_arg with
          | None | Some [] => Plain (make_failure "INVALID_DISEASE")
          | Some (disease_name0 :: _) =>
              let disease_name := _sanitize_disase_name disease_name0 in
              match get_tcga_abbr CA disease_name with
              | None => Plain (make_failure "INVALID_DISEASE")
              | Some disease_abbr =>
                  match find_mutex CA gene_name disease_abbr with
                  | [] => Plain (make_failure "NO_MUTEX_GENES_FOUND")
                  | result => SUCCESS_mutex (reorganize_mutex result)
                  end
              end
          end
    end.

Definition respond_find_cellular_location_from_names
  (content : LookupContent) : lookup_reply Float :=
  let gene_names := GENES_plain content in
  if falsy_plain gene_names then Plain (make_failure "MISSING_MECHANISM")
  else
    match gene_names with
    | None => Plain (make_failure "MISSING_MECHANISM")
    | Some (PlainStr _) => Plain (make_failure "INVALID_FORMAT")
    | Some (PlainList gene_names) =>
        match find_most_likely_cellular_location CA gene_names with
        | [] => Plain (make_failure "NO_COMMON_CELLULAR_LOCATION_FOUND")
        | result => SUCCESS_components (_get_default_list_cljson result)
        end
    end.

(** The call that would bind [result] is commented out (line 382), and no
    other line of the function or of the module binds the name: reading it
    (line 384) stops the handler. *)
Definition respond_find_cellular_location (content : LookupContent)
  : lookup_outcome Float :=
  let genes_arg := GENES content in
  if falsy_arg genes_arg
  then Replies (Plain (make_failure "MISSING_MECHANISM"))
  else
    match _get_kqml_names genes_arg with
    | None | Some [] => Replies (Plain (make_failure "MISSING_MECHANISM"))
    | Some (_ :: _) => NameError "result"
    end.

(** As in [respond_find_mutation_significance], the failure built for a
    missing gene is not returned (line 433). *)
Definition respond_find_gene_summary (content : LookupContent)
  : lookup_reply Float :=
  let gene_arg := GENE content in
  let _ := if falsy_arg gene_arg
           then Some (make_failure "MISSING_MECHANISM") else None in
  match _get_kqml_names gene_arg with
  | None | Some [] => Plain (make_failure "MISSING_MECHANISM")
  | Some (gene_name :: _) =>
      let result := find_gene_summary CA gene_name in
      SUCCESS_geneSummary result
  end.

End LookupHandlers.

(** A small lookup agent, after the test-suite. *)
Definition demo_hgnc : hgnc_client :=
  {| get_hgnc_id := fun n =>
       if String.eqb n "EGF" then Some "3229"
       else if String.eqb n "AKT1" then Some "391"
       else None;
     get_uniprot_id := fun h =>
       if String.eqb h "3229" then Some "P01133" else None |}.

Definition demo_lookup : LookupAgent string :=
  {| get_tcga_abbr := fun d =>
       if String.eqb d "breast cancer" then Some "BRCA"
       else if String.eqb d "pancreatic adenocarcinoma" then Some "PAAD"
       else None;
     find_mutation_significance := fun g d =>
       if String.eqb g "TP53" then Some "highly significant"
       else if String.eqb g "ACTN4" then Some "not significant"
       else None;
     find_mutex := fun g d =>
       if String.eqb g "TP53"
       then [ {| score := "0.0"; group := ["TP53"; "CDH1"] |};
              {| score := "0.0"; group := ["GATA3"; "TP53"; "CDH1"] |} ]
       else [];
     find_common_upstreams := fun gs =>
       if decide (gs = ["AKT1"; "BRAF"; "MAPK1"]) then ["EGF"; "AKT1"; "XYZ"]
       else [];
     find_most_likely_cellular_location := fun gs =>
       if decide (gs = ["AKT1"; "MAPK1"]) then ["mitochondrion"] else [];
     find_gene_summary := fun g => "" |}.

Definition lookup_request (gene genes disease : option (list string))
  : LookupContent :=
  {| GENE := KQMLAgents <$> gene; GENES := KQMLAgents <$> genes;
     DISEASE := KQMLAgents <$> disease; GENES_plain := PlainList <$> genes |}.

(** * Properties *)

Example make_indra_json_creb1 :
  snd (make_indra_json
         {| id1 := "MAPK1"; mods1 := []; id2 := "CREB1";
            mods2 := [ {| residue := "S"; position := "133" |} ];
            rel := "phosphorylates"; uri_str := "uri=x&" |})
  = Ok {| type := "Phosphorylation"; subj_key := "enz";
          subj := {| name := "MAPK1"; mods := [] |};
          obj_key := "sub"; obj_name := "CREB1";
          view_residue := "S"; view_position := "133" |}.
Proof. vm_compute. reflexivity. Qed.

Example demo_next_correlation :
  snd (serve (respond_dataset_correlated_entity (fun x => x) demo_CA)
         (replicate 4 (request (Some "AKT1") None None)) initial_world)
  = [ Ok (SUCCESS_correlation "BRAF" "0.7610843243760473" "explainable");
      Ok (SUCCESS_correlation "PTPN1" "0.581061418186" "explainable");
      Ok (SUCCESS_correlation "AGPS" "0.94999636806" "unexplainable");
      Ok (FAILURE "NO_PATH_FOUND") ].
Proof. vm_compute. reflexivity. Qed.

Example demo_target_phosphorylation :
  snd (respond_find_causality_target demo_CA
         (request (Some "MAPK1") None (Some "phosphorylation")) initial_world)
  = Ok (SUCCESS_paths
          [ {| type := "Phosphorylation"; subj_key := "enz";
               subj := {| name := "MAPK1"; mods := [] |};
               obj_key := "sub"; obj_name := "JUND";
               view_residue := "S"; view_position := "100" |};
            {| type := "Phosphorylation"; subj_key := "enz";
               subj := {| name := "MAPK1"; mods := [] |};
               obj_key := "sub"; obj_name := "CREB1";
               view_residue := "S"; view_position := "133" |} ]).
Proof. vm_compute. reflexivity. Qed.

(** ** Strings *)

Lemma upper_ascii_idemp (c : ascii) :
  PyStr.upper_ascii (PyStr.upper_ascii c) = PyStr.upper_ascii c.
Proof. destruct c as [[] [] [] [] [] [] [] []]; reflexivity. Qed.

Lemma upper_idemp (s : string) : PyStr.upper (PyStr.upper s) = PyStr.upper s.
Proof.
  induction s as [|c s IH]; simpl; [reflexivity|].
  now rewrite upper_ascii_idemp, IH.
Qed.

(** ** The view builder *)

Lemma indra_relation_map_keys (k v : string) :
  indra_relation_map !! k = Some v -> (k, v) ∈ indra_relation_pairs.
Proof. apply elem_of_list_to_map_2. Qed.

Lemma mods_of_set_rel (s : side) (v : string) (c : causality) :
  mods_of s (set_rel v c) = mods_of s c.
Proof. now destruct s. Qed.

Lemma id_of_set_rel (s : side) (v : string) (c : causality) :
  id_of s (set_rel v c) = id_of s c.
Proof. now destruct s. Qed.

(** The builder, read as one case analysis on the upper-cased relation. *)
Lemma make_indra_json_unfold (c : causality) :
  let R := PyStr.upper (rel c) in
  make_indra_json c =
  (set_rel R c,
   match indra_relation_map !! R with
   | None => Raise (KeyError R)
   | Some rel_type =>
       match mods_of (object_side R) c with
       | [] => Raise IndexError
       | m :: _ =>
           Ok {| type := rel_type;
                 subj_key := if PyStr.contains "PHOSPHO" R
                             then "enz" else "subj";
                 subj := {| name := id_of (subject_side R) c;
                            mods := mods_of (subject_side R) c |};
                 obj_key := if PyStr.contains "PHOSPHO" R
                            then "sub" else "obj";
                 obj_name := id_of (object_side R) c;
                 view_residue := residue m;
                 view_position := position m |}
       end
   end).
Proof.
  intros R. unfold make_indra_json, object_side, subject_side.
  cbn [rel set_rel]. fold R.
  destruct (indra_relation_map !! R) as [ty|]; [|reflexivity].
  destruct (PyStr.contains "IS" R), (PyStr.contains "PHOSPHO" R);
    rewrite mods_of_set_rel;
    match goal with
    | |- context [match ?l with [] => _ | _ :: _ => _ end] => destruct l
    end; reflexivity.
Qed.

Lemma make_indra_json_fst (c : causality) :
  fst (make_indra_json c) = set_rel (PyStr.upper (rel c)) c.
Proof. now rewrite make_indra_json_unfold. Qed.

Lemma set_rel_same (c : causality) : set_rel (rel c) c = c.
Proof. now destruct c. Qed.

(** Which keys of the table read from the object to the subject. *)
Lemma inverse_phrased_keys (R ty : string) :
  indra_relation_map !! R = Some ty ->
  PyStr.contains "IS" R = true <->
  R ∈ [ "IS-PHOSPHORYLATED-BY"; "IS-DEPHOSPHORYLATED-BY";
        "EXPRESSION-IS-UPREGULATED-BY"; "EXPRESSION-IS-DOWNREGULATED-BY" ].
Proof.
  intros H%indra_relation_map_keys. unfold indra_relation_pairs in H.
  rewrite list_elem_of_In.
  repeat (apply elem_of_cons in H as [[= -> ->]|H]);
    try (now apply elem_of_nil in H);
    (split; [intros Hc; vm_compute in Hc; try discriminate; simpl; tauto
            |intros Hin; simpl in Hin; vm_compute;
             intuition (try discriminate)]).
Qed.

(** C8, as amended: the view builder writes to its input once.  It replaces
    the relation of the record by its upper-case form and leaves the five
    other fields as they were; the record is unchanged exactly when its
    relation is upper-case already, and building the view again from the
    rewritten record changes nothing and gives the same result. *)
Theorem C8_make_indra_json_rewrites_rel (c : causality) :
  let c' := fst (make_indra_json c) in
  rel c' = PyStr.upper (rel c)
  /\ (id1 c' = id1 c /\ mods1 c' = mods1 c /\ id2 c' = id2 c
      /\ mods2 c' = mods2 c /\ uri_str c' = uri_str c)
  /\ (c' = c <-> PyStr.upper (rel c) = rel c)
  /\ make_indra_json c' = (c', snd (make_indra_json c)).
Proof.
  cbn zeta. rewrite make_indra_json_fst. repeat split; try reflexivity.
  - intros H. now rewrite <- H at 2.
  - intros ->. apply set_rel_same.
  - rewrite !make_indra_json_unfold. cbn [rel set_rel snd].
    now rewrite upper_idemp.
Qed.

(** C9: whenever a view is built, it shows the first site of one
    modification sequence and nothing of the sites behind it, and the roles
    follow the relation name: with 'IS' in the name, side 2 is the subject
    and the site is the first of mods1; without it, side 1 is the subject
    and the site is the first of mods2.  A relation of the table with a
    non-empty sequence on that side always yields such a view. *)
Theorem C9_view_reading_direction (c : causality) :
  let R := PyStr.upper (rel c) in
  (forall v, snd (make_indra_json c) = Ok v ->
     (PyStr.contains "IS" R = true ->
        name (subj v) = id2 c /\ mods (subj v) = mods2 c /\
        obj_name v = id1 c /\
        exists m rest, mods1 c = m :: rest /\
          view_residue v = residue m /\ view_position v = position m)
     /\ (PyStr.contains "IS" R = false ->
        name (subj v) = id1 c /\ mods (subj v) = mods1 c /\
        obj_name v = id2 c /\
        exists m rest, mods2 c = m :: rest /\
          view_residue v = residue m /\ view_position v = position m))
  /\ (forall ty m rest,
        indra_relation_map !! R = Some ty ->
        mods_of (object_side R) c = m :: rest ->
        exists v, snd (make_indra_json c) = Ok v /\ type v = ty /\
          view_residue v = residue m /\ view_position v = position m).
Proof.
  intros R. rewrite make_indra_json_unfold. fold R. cbn [snd]. split.
  - intros v Hv.
    destruct (indra_relation_map !! R) as [ty|]; [|discriminate].
    unfold object_side, subject_side in Hv.
    destruct (PyStr.contains "IS" R); cbn [mods_of id_of] in Hv.
    + destruct (mods1 c) as [|m rest] eqn:Hm; [discriminate|].
      injection Hv as <-. split; [intros _|discriminate].
      cbn. repeat split. now exists m, rest.
    + destruct (mods2 c) as [|m rest] eqn:Hm; [discriminate|].
      injection Hv as <-. split; [discriminate|intros _].
      cbn. repeat split. now exists m, rest.
  - intros ty m rest -> ->. eexists. split; [reflexivity|]. now cbn.
Qed.

(** C10, as amended: a record whose object-side modification sequence is
    empty never yields a view.  When its relation has an entry in
    [indra_relation_map], whatever the family of the relation, the builder
    raises IndexError; when it has none, the KeyError of the table comes
    first. *)
Theorem C10_empty_object_mods_raise (c : causality) :
  let R := PyStr.upper (rel c) in
  mods_of (object_side R) c = [] ->
  (forall ty, indra_relation_map !! R = Some ty ->
     snd (make_indra_json c) = Raise IndexError)
  /\ (indra_relation_map !! R = None ->
     snd (make_indra_json c) = Raise (KeyError R))
  /\ (forall v, snd (make_indra_json c) <> Ok v).
Proof.
  intros R Hm. rewrite make_indra_json_unfold. fold R. cbn [snd].
  rewrite Hm. repeat split.
  - now intros ty ->.
  - now intros ->.
  - intros v. now destruct (indra_relation_map !! R).
Qed.

(** ** Running the handlers *)

Lemma logged_nil (w : World) : logged w [] = w.
Proof. destruct w. unfold logged. cbn. now rewrite app_nil_r. Qed.

Lemma logged_logged (w : World) (evs evs' : list event) :
  logged (logged w evs) evs' = logged w (evs ++ evs').
Proof. unfold logged. cbn. now rewrite app_assoc. Qed.

Lemma names_not_falsy (a : option kqml_arg) (n : string) (ns : list string) :
  _get_kqml_names a = Some (n :: ns) -> falsy_arg a = false.
Proof. unfold _get_kqml_names. now destruct (falsy_arg a). Qed.

Lemma for_each_send_provenance (l : list causality) (w : World) :
  for_each send_provenance l w
  = (logged w (map (fun r => send (add_provenance r)) l), Ok tt).
Proof.
  revert w. induction l as [|r l IH]; intros w; cbn.
  - unfold ret. now rewrite logged_nil.
  - unfold bind, send_provenance, log. rewrite IH.
    now rewrite logged_logged.
Qed.

Lemma make_indra_json_all_first_raises (r : causality)
  (rest : list causality) (e : exn) :
  snd (make_indra_json r) = Raise e ->
  snd (make_indra_json_all (r :: rest)) = Raise e.
Proof.
  cbn. destruct (make_indra_json r) as [r' [j|e']]; cbn; [discriminate|].
  now intros [= ->].
Qed.

Lemma respond_find_causality_target_run {Float} (CA : CausalityAgent Float)
  (c : Content) (w : World) (n : string) (ns : list string) (v : string) :
  _get_kqml_names (SOURCE c) = Some (n :: ns) ->
  rel_lookup target_rel_map (TYPE c) = Some v ->
  respond_find_causality_target CA c w
  = discovery_run CA
      {| query_id := n; query_pSite := " "; query_rel := v |} w.
Proof.
  intros Hn Hv. unfold respond_find_causality_target, discovery_run.
  rewrite (names_not_falsy _ _ _ Hn), Hn, Hv.
  unfold bind at 1, CA_call_find_causality_targets, bind at 1, log, ret.
  destruct (find_causality_targets CA _) as [|r rest] eqn:Hres;
    [reflexivity|].
  unfold bind at 1. rewrite for_each_send_provenance.
  unfold bind, lift, ret. rewrite logged_logged.
  now destruct (snd (make_indra_json_all (r :: rest))).
Qed.

Lemma respond_find_causality_source_run {Float} (CA : CausalityAgent Float)
  (c : Content) (w : World) (n : string) (ns : list string) (v : string) :
  _get_kqml_names (TARGET c) = Some (n :: ns) ->
  rel_lookup source_rel_map (TYPE c) = Some v ->
  respond_find_causality_source CA c w
  = discovery_run CA
      {| query_id := n; query_pSite := " "; query_rel := v |} w.
Proof.
  intros Hn Hv. unfold respond_find_causality_source, discovery_run.
  rewrite (names_not_falsy _ _ _ Hn), Hn, Hv.
  unfold bind at 1, CA_call_find_causality_targets, bind at 1, log, ret.
  destruct (find_causality_targets CA _) as [|r rest] eqn:Hres;
    [reflexivity|].
  unfold bind at 1. rewrite for_each_send_provenance.
  unfold bind, lift, ret. rewrite logged_logged.
  now destruct (snd (make_indra_json_all (r :: rest))).
Qed.

(** The first thing a discovery does is to ask the agent for [q]. *)
Lemma discovery_run_asks {Float} (CA : CausalityAgent Float)
  (q : targets_query) (w : World) :
  exists evs,
    trace (fst (discovery_run CA q w))
    = (trace w ++ CA_find_causality_targets q :: evs)%list.
Proof.
  unfold discovery_run.
  destruct (find_causality_targets CA q); eexists; reflexivity.
Qed.

Lemma discovery_run_unmapped {Float} (CA : CausalityAgent Float)
  (q : targets_query) (w : World) :
  answers_requested_relation CA ->
  indra_relation_map !! PyStr.upper (query_rel q) = None ->
  find_causality_targets CA q <> [] ->
  snd (discovery_run CA q w) = Raise (KeyError (PyStr.upper (query_rel q))).
Proof.
  intros HCA Hmap Hne. unfold discovery_run.
  destruct (find_causality_targets CA q) as [|r rest] eqn:Hres;
    [contradiction|]. cbn [snd].
  assert (Hr : PyStr.upper (rel r) = PyStr.upper (query_rel q)).
  { apply HCA. rewrite Hres. apply list_elem_of_here. }
  rewrite (make_indra_json_all_first_raises r rest
             (KeyError (PyStr.upper (query_rel q)))); [reflexivity|].
  rewrite make_indra_json_unfold. cbn [snd]. now rewrite Hr, Hmap.
Qed.

(** ** The relation vocabulary *)

(** C1, as amended: for a target-given query the verb "activate" normalizes
    to expression-is-up, which is not the upregulates-expression relation
    the source-given table gives to "activate" and "increase"; the verb
    "increase" normalizes to upregulates-expression for a target-given query
    as well.  The agent is asked for exactly these relations. *)
Theorem C1_source_table_activate_increase :
  (source_rel_map !! "activate" = Some "expression-is-up"
   /\ source_rel_map !! "increase" = Some "upregulates-expression"
   /\ target_rel_map !! "activate" = Some "upregulates-expression"
   /\ target_rel_map !! "increase" = Some "upregulates-expression"
   /\ "expression-is-up" <> "upregulates-expression")
  /\ forall Float (CA : CausalityAgent Float) (c : Content) (w : World)
       (n : string) (ns : list string),
       _get_kqml_names (TARGET c) = Some (n :: ns) ->
       (TYPE c = Some "activate" ->
        exists evs,
          trace (fst (respond_find_causality_source CA c w))
          = (trace w ++
             CA_find_causality_targets
               {| query_id := n; query_pSite := " ";
                  query_rel := "expression-is-up" |} :: evs)%list)
       /\ (TYPE c = Some "increase" ->
        exists evs,
          trace (fst (respond_find_causality_source CA c w))
          = (trace w ++
             CA_find_causality_targets
               {| query_id := n; query_pSite := " ";
                  query_rel := "upregulates-expression" |} :: evs)%list).
Proof.
  split; [repeat split; (reflexivity || discriminate)|].
  intros Float CA c w n ns Hn. split; intros Hty.
  - rewrite (respond_find_causality_source_run CA c w n ns "expression-is-up");
      [apply discovery_run_asks|assumption|now rewrite Hty].
  - rewrite (respond_find_causality_source_run CA c w n ns
               "upregulates-expression");
      [apply discovery_run_asks|assumption|now rewrite Hty].
Qed.

(** C7: each discovery handler normalizes the verb through its own table and
    asks the agent for the relation found there.  The table of the
    source-given handler sends "phosphorylation" to phosphorylates and
    "activate" and "increase" to upregulates-expression; the table of the
    target-given handler sends "phosphorylation" to is-phosphorylated-by. *)
Theorem C7_one_table_per_query_role :
  (target_rel_map !! "phosphorylation" = Some "phosphorylates"
   /\ target_rel_map !! "activate" = Some "upregulates-expression"
   /\ target_rel_map !! "increase" = Some "upregulates-expression"
   /\ source_rel_map !! "phosphorylation" = Some "is-phosphorylated-by"
   /\ target_rel_map <> source_rel_map)
  /\ forall Float (CA : CausalityAgent Float) (c : Content) (w : World)
       (n : string) (ns : list string) (verb v : string),
       TYPE c = Some verb ->
       (_get_kqml_names (SOURCE c) = Some (n :: ns) ->
        target_rel_map !! verb = Some v ->
        exists evs,
          trace (fst (respond_find_causality_target CA c w))
          = (trace w ++
             CA_find_causality_targets
               {| query_id := n; query_pSite := " "; query_rel := v |}
             :: evs)%list)
       /\ (_get_kqml_names (TARGET c) = Some (n :: ns) ->
        source_rel_map !! verb = Some v ->
        exists evs,
          trace (fst (respond_find_causality_source CA c w))
          = (trace w ++
             CA_find_causality_targets
               {| query_id := n; query_pSite := " "; query_rel := v |}
             :: evs)%list).
Proof.
  split.
  - repeat split; try reflexivity.
    intros H. apply (f_equal (fun m => m !! "phosphorylation")) in H.
    vm_compute in H. discriminate.
  - intros Float CA c w n ns verb v Hty. split; intros Hn Hv.
    + rewrite (respond_find_causality_target_run CA c w n ns v);
        [apply discovery_run_asks|assumption|now rewrite Hty].
    + rewrite (respond_find_causality_source_run CA c w n ns v);
        [apply discovery_run_asks|assumption|now rewrite Hty].
Qed.

(** C6: a verb with no entry in the table of the handler ends the request
    with the MISSING_MECHANISM failure, whatever else the request holds and
    in whatever world it is served: the world is left as it was, so the
    agent was not asked anything, and serving the request again can only
    fail the same way. *)
Theorem C6_unknown_verb_missing_mechanism {Float}
  (CA : CausalityAgent Float) (c : Content) (w : World) (verb : string) :
  TYPE c = Some verb ->
  (target_rel_map !! verb = None ->
   respond_find_causality_target CA c w
   = (w, Ok (FAILURE "MISSING_MECHANISM")))
  /\ (source_rel_map !! verb = None ->
   respond_find_causality_source CA c w
   = (w, Ok (FAILURE "MISSING_MECHANISM"))).
Proof.
  intros Hty. split; intros Hv.
  - unfold respond_find_causality_target. rewrite Hty. cbn [rel_lookup].
    rewrite Hv. destruct (falsy_arg (SOURCE c)); [reflexivity|].
    now destruct (_get_kqml_names (SOURCE c)) as [[|n ns]|].
  - unfold respond_find_causality_source. rewrite Hty. cbn [rel_lookup].
    rewrite Hv. destruct (falsy_arg (TARGET c)); [reflexivity|].
    now destruct (_get_kqml_names (TARGET c)) as [[|n ns]|].
Qed.

(** C2: the relations dephosphorylates, expression-is-up and modulates have
    no entry in [indra_relation_map], so the view builder raises the
    KeyError of the table on every record that carries one of them.  They
    are what "dephosphorylation" and "modulate" normalize to for a
    source-given query and "activate" and "modulate" for a target-given one:
    whenever the agent hands back edges for such a request, the handler
    raises instead of replying. *)
Theorem C2_unmapped_relations_raise :
  (forall c : causality,
     PyStr.upper (rel c) ∈ ["DEPHOSPHORYLATES"; "EXPRESSION-IS-UP"; "MODULATES"] ->
     snd (make_indra_json c) = Raise (KeyError (PyStr.upper (rel c))))
  /\ (target_rel_map !! "dephosphorylation" = Some "dephosphorylates"
      /\ target_rel_map !! "modulate" = Some "modulates"
      /\ source_rel_map !! "activate" = Some "expression-is-up"
      /\ source_rel_map !! "modulate" = Some "modulates")
  /\ forall Float (CA : CausalityAgent Float) (c : Content) (w : World)
       (n : string) (ns : list string) (verb v : string),
       answers_requested_relation CA ->
       TYPE c = Some verb ->
       find_causality_targets CA
         {| query_id := n; query_pSite := " "; query_rel := v |} <> [] ->
       (verb ∈ ["dephosphorylation"; "modulate"] ->
        _get_kqml_names (SOURCE c) = Some (n :: ns) ->
        target_rel_map !! verb = Some v ->
        snd (respond_find_causality_target CA c w)
        = Raise (KeyError (PyStr.upper v)))
       /\ (verb ∈ ["activate"; "modulate"] ->
        _get_kqml_names (TARGET c) = Some (n :: ns) ->
        source_rel_map !! verb = Some v ->
        snd (respond_find_causality_source CA c w)
        = Raise (KeyError (PyStr.upper v))).
Proof.
  split; [|split].
  - intros c Hin. rewrite make_indra_json_unfold. cbn [snd].
    repeat (apply elem_of_cons in Hin as [->|Hin]); try reflexivity.
    now apply elem_of_nil in Hin.
  - repeat split; reflexivity.
  - intros Float CA c w n ns verb v HCA Hty Hne. split; intros Hin Hn Hv.
    + rewrite (respond_find_causality_target_run CA c w n ns v);
        [|assumption|now rewrite Hty].
      pose proof (discovery_run_unmapped CA
                    {| query_id := n; query_pSite := " "; query_rel := v |}
                    w HCA) as Hrun.
      cbn [query_rel] in Hrun. apply Hrun; [|assumption].
      repeat (apply elem_of_cons in Hin as [->|Hin]);
        try (now apply elem_of_nil in Hin);
        vm_compute in Hv; injection Hv as <-; reflexivity.
    + rewrite (respond_find_causality_source_run CA c w n ns v);
        [|assumption|now rewrite Hty].
      pose proof (discovery_run_unmapped CA
                    {| query_id := n; query_pSite := " "; query_rel := v |}
                    w HCA) as Hrun.
      cbn [query_rel] in Hrun. apply Hrun; [|assumption].
      repeat (apply elem_of_cons in Hin as [->|Hin]);
        try (now apply elem_of_nil in Hin);
        vm_compute in Hv; injection Hv as <-; reflexivity.
Qed.

(** ** The correlation cursor *)

Section Cursor.

Context {Float : Type}.
Variable str : Float -> string.
Variable CA : CausalityAgent Float.

Lemma find_next_correlation_at (gene : string) (ind : gmap string nat)
  (r : CorrelationRecord Float) :
  correlation_table CA gene !! default 0%nat (ind !! gene) = Some r ->
  find_next_correlation CA gene ind
  = (<[gene := S (default 0%nat (ind !! gene))]> ind,
     Next (explain CA gene r)).
Proof. intros H. unfold find_next_correlation. now rewrite H. Qed.

Lemma find_next_correlation_exhausted (gene : string)
  (ind : gmap string nat) :
  List.length (correlation_table CA gene) <= default 0%nat (ind !! gene) ->
  find_next_correlation CA gene ind = (ind, Exhausted).
Proof.
  intros H%lookup_ge_None. unfold find_next_correlation. now rewrite H.
Qed.

(** From offset [o], [k] calls walk through the records [o], ..., [o+k-1]
    of the table and leave the offset at [o+k]. *)
Lemma next_correlations_from (gene : string) (k : nat) :
  forall (ind : gmap string nat) (o : nat),
    default 0%nat (ind !! gene) = o ->
    o + k <= List.length (correlation_table CA gene) ->
    snd (next_correlations CA gene k ind)
    = map (fun r => Next (explain CA gene r))
        (take k (drop o (correlation_table CA gene)))
    /\ default 0%nat (fst (next_correlations CA gene k ind) !! gene)
       = o + k.
Proof.
  induction k as [|k IH]; intros ind o Ho Hk.
  - cbn. split; [reflexivity|lia].
  - destruct (lookup_lt_is_Some_2 (correlation_table CA gene) o)
      as [r Hr]; [lia|].
    cbn [next_correlations].
    rewrite (find_next_correlation_at gene ind r) by now rewrite Ho.
    rewrite Ho.
    destruct (IH (<[gene := S o]> ind) (S o)) as [IH1 IH2];
      [now rewrite lookup_insert_eq|lia|].
    destruct (next_correlations CA gene k (<[gene := S o]> ind))
      as [ind'' rest]. cbn [fst snd] in *.
    rewrite (drop_S _ _ _ Hr). cbn. rewrite IH1, IH2.
    split; [reflexivity|lia].
Qed.

Lemma respond_dataset_correlated_entity_run (c : Content) (w : World)
  (n : string) (ns : list string) :
  _get_kqml_names (SOURCE c) = Some (n :: ns) ->
  respond_dataset_correlated_entity str CA c w
  = (logged {| corr_ind := fst (find_next_correlation CA n (corr_ind w));
               trace := trace w |} [CA_find_next_correlation n],
     Ok (correlation_reply str
           (snd (find_next_correlation CA n (corr_ind w))))).
Proof.
  intros Hn. unfold respond_dataset_correlated_entity.
  rewrite (names_not_falsy _ _ _ Hn), Hn.
  unfold bind, CA_call_find_next_correlation, bind, log, logged, ret.
  cbn [corr_ind trace].
  destruct (find_next_correlation CA n (corr_ind w)) as [ind [|res]];
    reflexivity.
Qed.

Lemma serve_dataset_correlated_entity (c : Content) (n : string)
  (ns : list string) (k : nat) :
  _get_kqml_names (SOURCE c) = Some (n :: ns) ->
  forall w : World,
    corr_ind (fst (serve (respond_dataset_correlated_entity str CA)
                     (replicate k c) w))
    = fst (next_correlations CA n k (corr_ind w))
    /\ snd (serve (respond_dataset_correlated_entity str CA)
              (replicate k c) w)
       = map (fun res => Ok (correlation_reply str res))
           (snd (next_correlations CA n k (corr_ind w))).
Proof.
  intros Hn. induction k as [|k IH]; intros w; [now cbn|].
  cbn [replicate serve next_correlations].
  rewrite (respond_dataset_correlated_entity_run c w n ns Hn).
  destruct (find_next_correlation CA n (corr_ind w)) as [ind res].
  cbn [fst snd].
  specialize (IH (logged {| corr_ind := ind; trace := trace w |}
                    [CA_find_next_correlation n])).
  cbn [logged corr_ind] in IH.
  destruct (serve _ (replicate k c) _) as [w'' rs].
  destruct (next_correlations CA n k ind) as [ind'' rest].
  cbn [fst snd] in *. destruct IH as [-> ->]. now cbn.
Qed.

End Cursor.

Lemma respond_find_causal_path_not_found {Float} (CA : CausalityAgent Float)
  (c : Content) (w : World) (s t : string) (ss ts : list string) :
  _get_kqml_names (SOURCE c) = Some (s :: ss) ->
  _get_kqml_names (TARGET c) = Some (t :: ts) ->
  find_causality CA
    {| source := {| id := s; pSite := "" |};
       target := {| id := t; pSite := "" |};
       direction := DIRECTION c |} = None ->
  snd (respond_find_causal_path CA c w) = Ok (FAILURE "NO_PATH_FOUND").
Proof.
  intros Hs Ht Hq. unfold respond_find_causal_path.
  rewrite (names_not_falsy _ _ _ Hs), (names_not_falsy _ _ _ Ht), Hs, Ht.
  cbn [orb]. unfold bind at 1, CA_call_find_causality, bind, log, ret.
  now rewrite Hq.
Qed.

(** C3: with no offset stored for the source (the agent has just started,
    or was just reset), [k] successive calls for it, [k] within the length
    of its correlation table, return the first [k] records of the table in
    the order of the table, each once and each with the flag computed for
    that record alone; after the last record of the table the next call
    returns the exhausted marker.  The handler replies accordingly. *)
Theorem C3_successive_correlations {Float} (str : Float -> string)
  (CA : CausalityAgent Float) (gene : string) (k : nat)
  (ind : gmap string nat) :
  let table := correlation_table CA gene in
  default 0%nat (ind !! gene) = 0%nat ->
  k <= List.length table ->
  snd (next_correlations CA gene k ind)
  = map (fun r =>
           Next {| res_id2 := corr_target r;
                   res_correlation := corr_value r;
                   res_explainable :=
                     explainable_flag CA gene (corr_target r) |})
      (take k table)
  /\ snd (find_next_correlation CA gene
            (fst (next_correlations CA gene (List.length table) ind)))
     = Exhausted
  /\ forall (c : Content) (w : World) (ns : list string),
       _get_kqml_names (SOURCE c) = Some (gene :: ns) ->
       corr_ind w = ind ->
       snd (serve (respond_dataset_correlated_entity str CA)
              (replicate k c) w)
       = map (fun r =>
                Ok (SUCCESS_correlation (corr_target r) (str (corr_value r))
                      (explainable_flag CA gene (corr_target r))))
           (take k table)
       /\ snd (respond_dataset_correlated_entity str CA c
                 (fst (serve (respond_dataset_correlated_entity str CA)
                         (replicate (List.length table) c) w)))
          = Ok (FAILURE "NO_PATH_FOUND").
Proof.
  intros table H0 Hk.
  destruct (next_correlations_from CA gene k ind 0 H0) as [Hk1 _];
    [exact Hk|].
  destruct (next_correlations_from CA gene (List.length table) ind 0 H0)
    as [_ Hend]; [fold table; lia|].
  rewrite drop_0 in Hk1. fold table in Hk1.
  assert (Hex : find_next_correlation CA gene
                  (fst (next_correlations CA gene (List.length table) ind))
                = (fst (next_correlations CA gene (List.length table) ind),
                   Exhausted)).
  { apply find_next_correlation_exhausted. fold table. rewrite Hend. lia. }
  split; [exact Hk1|]. split; [now rewrite Hex|].
  intros c w ns Hn <-. split.
  - destruct (serve_dataset_correlated_entity str CA c gene ns k Hn w)
      as [_ ->].
    rewrite Hk1, map_map. reflexivity.
  - rewrite (respond_dataset_correlated_entity_run str CA c _ gene ns Hn).
    destruct (serve_dataset_correlated_entity str CA c gene ns
                (List.length table) Hn w) as [-> _].
    cbn [snd]. now rewrite Hex.
Qed.

(** C4: after a reset, the next call for a source returns what the very
    first call for that source returned, made when no offset was stored for
    it: the first record of its correlation table, with the same flag.  The
    replies of the two handlers, served one after the other, say the
    same. *)
Theorem C4_reset_restarts {Float} (str : Float -> string)
  (CA : CausalityAgent Float) (gene : string)
  (ind ind0 : gmap string nat) :
  ind0 !! gene = None ->
  snd (find_next_correlation CA gene (reset_indices ind))
  = snd (find_next_correlation CA gene ind0)
  /\ (forall r rest,
        correlation_table CA gene = r :: rest ->
        snd (find_next_correlation CA gene (reset_indices ind))
        = Next (explain CA gene r))
  /\ forall (c0 c : Content) (w w0 : World) (ns : list string),
       _get_kqml_names (SOURCE c) = Some (gene :: ns) ->
       corr_ind w = ind -> corr_ind w0 = ind0 ->
       snd (respond_reset_causality_indices c0 w) = Ok SUCCESS
       /\ snd (respond_dataset_correlated_entity str CA c
                 (fst (respond_reset_causality_indices c0 w)))
          = snd (respond_dataset_correlated_entity str CA c w0).
Proof.
  intros H0.
  assert (Heq : snd (find_next_correlation CA gene (reset_indices ind))
                = snd (find_next_correlation CA gene ind0)).
  { unfold find_next_correlation, reset_indices.
    rewrite lookup_empty, H0. cbn [default].
    now destruct (correlation_table CA gene !! 0%nat). }
  split; [exact Heq|]. split.
  - intros r rest Htab. unfold find_next_correlation, reset_indices.
    rewrite lookup_empty, Htab. reflexivity.
  - intros c0 c w w0 ns Hn <- <-. split; [reflexivity|].
    rewrite !(respond_dataset_correlated_entity_run str CA c _ gene ns Hn).
    cbn [snd]. f_equal. f_equal. exact Heq.
Qed.

(** C5, as amended: when the offset of a source has reached the end of its
    correlation table -- at once for a source whose table is empty -- the
    call returns the exhausted marker, raises nothing and leaves the offsets
    as they were, so the calls after it return the marker again.  The
    handler reports the marker as the failure NO_PATH_FOUND, which is also
    its report of a path that was not found. *)
Theorem C5_exhausted_is_no_path_found {Float} (str : Float -> string)
  (CA : CausalityAgent Float) (gene : string) (ind : gmap string nat) :
  List.length (correlation_table CA gene) <= default 0%nat (ind !! gene) ->
  find_next_correlation CA gene ind = (ind, Exhausted)
  /\ (forall (c : Content) (w : World) (ns : list string),
        _get_kqml_names (SOURCE c) = Some (gene :: ns) ->
        corr_ind w = ind ->
        respond_dataset_correlated_entity str CA c w
        = (logged w [CA_find_next_correlation gene],
           Ok (FAILURE "NO_PATH_FOUND")))
  /\ (forall (c : Content) (w : World) (s t : string) (ss ts : list string),
        _get_kqml_names (SOURCE c) = Some (s :: ss) ->
        _get_kqml_names (TARGET c) = Some (t :: ts) ->
        find_causality CA
          {| source := {| id := s; pSite := "" |};
             target := {| id := t; pSite := "" |};
             direction := DIRECTION c |} = None ->
        snd (respond_find_causal_path CA c w)
        = Ok (FAILURE "NO_PATH_FOUND")).
Proof.
  intros Hlen.
  pose proof (find_next_correlation_exhausted CA gene ind Hlen) as Hex.
  split; [exact Hex|]. split.
  - intros c w ns Hn Hw.
    rewrite (respond_dataset_correlated_entity_run str CA c w gene ns Hn).
    rewrite Hw, Hex. cbn [fst snd correlation_reply]. rewrite <- Hw.
    now destruct w.
  - intros c w s t ss ts. apply respond_find_causal_path_not_found.
Qed.

(** ** The properties at work on the small knowledge store *)

Lemma demo_CA_answers_requested_relation : answers_requested_relation demo_CA.
Proof.
  intros q r Hin.
  change (r ∈ demo_find_causality_targets q) in Hin.
  unfold demo_find_causality_targets in Hin.
  apply list_elem_of_filter in Hin as [[_ Hrel] _].
  rewrite Hrel. apply upper_idemp.
Qed.

Lemma C1_witness :
  let c := request None (Some "BRAF") (Some "activate") in
  _get_kqml_names (TARGET c) = Some ["BRAF"]
  /\ TYPE c = Some "activate"
  /\ exists evs,
       trace (fst (respond_find_causality_source demo_CA c initial_world))
       = (trace initial_world ++
          CA_find_causality_targets
            {| query_id := "BRAF"; query_pSite := " ";
               query_rel := "expression-is-up" |} :: evs)%list.
Proof.
  intros c. split; [reflexivity|]. split; [reflexivity|].
  apply (proj1 (proj2 C1_source_table_activate_increase string demo_CA c
                  initial_world "BRAF" [] eq_refl) eq_refl).
Defined.

Lemma C1_counterexample :
  source_rel_map !! "increase" <> Some "expression-is-up"
  /\ trace (fst (respond_find_causality_source demo_CA
                   (request None (Some "BRAF") (Some "increase"))
                   initial_world))
     = [ CA_find_causality_targets
           {| query_id := "BRAF"; query_pSite := " ";
              query_rel := "upregulates-expression" |} ].
Proof.
  split; [intros H; vm_compute in H; discriminate|].
  vm_compute. reflexivity.
Qed.

Lemma C2_witness :
  let c := request (Some "MAPK1") None (Some "modulate") in
  answers_requested_relation demo_CA
  /\ TYPE c = Some "modulate"
  /\ find_causality_targets demo_CA
       {| query_id := "MAPK1"; query_pSite := " ";
          query_rel := "modulates" |} <> []
  /\ "modulate" ∈ ["dephosphorylation"; "modulate"]
  /\ _get_kqml_names (SOURCE c) = Some ["MAPK1"]
  /\ target_rel_map !! "modulate" = Some "modulates"
  /\ snd (respond_find_causality_target demo_CA c initial_world)
     = Raise (KeyError (PyStr.upper "modulates")).
Proof.
  intros c.
  assert (Hne : find_causality_targets demo_CA
                  {| query_id := "MAPK1"; query_pSite := " ";
                     query_rel := "modulates" |} <> [])
    by (vm_compute; discriminate).
  assert (Hin : "modulate" ∈ ["dephosphorylation"; "modulate"])
    by (apply list_elem_of_further, list_elem_of_here).
  repeat (split; [first [ exact demo_CA_answers_requested_relation
                        | exact Hne | exact Hin | reflexivity ]|]).
  apply (proj1 (proj2 (proj2 C2_unmapped_relations_raise) string demo_CA c
                  initial_world "MAPK1" [] "modulate" "modulates"
                  demo_CA_answers_requested_relation eq_refl Hne)
           Hin eq_refl eq_refl).
Defined.

Lemma C3_witness :
  default 0%nat ((∅ : gmap string nat) !! "AKT1") = 0%nat
  /\ 3 <= List.length (correlation_table demo_CA "AKT1")
  /\ snd (next_correlations demo_CA "AKT1" 3 ∅)
     = [ Next {| res_id2 := "BRAF";
                 res_correlation := "0.7610843243760473";
                 res_explainable := "explainable" |};
         Next {| res_id2 := "PTPN1"; res_correlation := "0.581061418186";
                 res_explainable := "explainable" |};
         Next {| res_id2 := "AGPS"; res_correlation := "0.94999636806";
                 res_explainable := "unexplainable" |} ].
Proof.
  split; [reflexivity|]. split; [cbn; lia|].
  refine (proj1 (C3_successive_correlations (fun x => x) demo_CA "AKT1" 3
                   ∅ _ _)); [reflexivity|cbn; lia].
Defined.

Lemma C4_witness :
  (∅ : gmap string nat) !! "AKT1" = None
  /\ snd (find_next_correlation demo_CA "AKT1"
            (reset_indices {[ "AKT1" := 3 ]}))
     = snd (find_next_correlation demo_CA "AKT1" ∅).
Proof.
  split; [reflexivity|].
  refine (proj1 (C4_reset_restarts (fun x => x) demo_CA "AKT1"
                   {[ "AKT1" := 3 ]} ∅ _)); reflexivity.
Defined.

Lemma C5_witness :
  List.length (correlation_table demo_CA "ABC")
  <= default 0%nat ((∅ : gmap string nat) !! "ABC")
  /\ find_next_correlation demo_CA "ABC" ∅ = (∅, Exhausted).
Proof.
  split; [cbn; lia|].
  refine (proj1 (C5_exhausted_is_no_path_found (fun x => x) demo_CA "ABC"
                   ∅ _)); cbn; lia.
Defined.

Lemma C5_counterexample :
  ~ (snd (respond_dataset_correlated_entity (fun x => x) demo_CA
            (request (Some "ABC") None None) initial_world)
     <> snd (respond_find_causal_path demo_CA
               (request (Some "RAS") (Some "MAPK1") None) initial_world)).
Proof. intros H. apply H. vm_compute. reflexivity. Qed.

Lemma C6_witness :
  let c := request (Some "MAPK1") None (Some "activation") in
  TYPE c = Some "activation"
  /\ target_rel_map !! "activation" = None
  /\ respond_find_causality_target demo_CA c initial_world
     = (initial_world, Ok (FAILURE "MISSING_MECHANISM")).
Proof.
  intros c. split; [reflexivity|]. split; [reflexivity|].
  apply (proj1 (C6_unknown_verb_missing_mechanism demo_CA c initial_world
                  "activation" eq_refl) eq_refl).
Defined.

Lemma C7_witness :
  let c := request None (Some "BRAF") (Some "phosphorylation") in
  TYPE c = Some "phosphorylation"
  /\ _get_kqml_names (TARGET c) = Some ["BRAF"]
  /\ source_rel_map !! "phosphorylation" = Some "is-phosphorylated-by"
  /\ exists evs,
       trace (fst (respond_find_causality_source demo_CA c initial_world))
       = (trace initial_world ++
          CA_find_causality_targets
            {| query_id := "BRAF"; query_pSite := " ";
               query_rel := "is-phosphorylated-by" |} :: evs)%list.
Proof.
  intros c. repeat (split; [reflexivity|]).
  apply (proj2 (proj2 C7_one_table_per_query_role string demo_CA c
                  initial_world "BRAF" [] "phosphorylation"
                  "is-phosphorylated-by" eq_refl) eq_refl eq_refl).
Defined.

Lemma C8_witness :
  let c := mk_causality "MAPK1" "PHOSPHORYLATES" "JUND" []
             [ {| residue := "S"; position := "100" |} ] in
  PyStr.upper (rel c) = rel c /\ fst (make_indra_json c) = c.
Proof.
  intros c. split; [reflexivity|].
  apply (proj2 (proj1 (proj2 (proj2 (C8_make_indra_json_rewrites_rel c))))).
  reflexivity.
Defined.

Lemma C8_counterexample :
  let c := mk_causality "MAPK1" "phosphorylates" "CREB1" []
             [ {| residue := "S"; position := "133" |} ] in
  fst (make_indra_json c) <> c
  /\ rel (fst (make_indra_json c)) <> rel c.
Proof.
  intros c. split; intros H; vm_compute in H; discriminate.
Qed.

Lemma C9_witness :
  let c := mk_causality "BRAF" "is-phosphorylated-by" "NRAS"
             [ {| residue := "S"; position := "601" |};
               {| residue := "T"; position := "599" |} ] [] in
  let v := {| type := "Phosphorylation"; subj_key := "enz";
              subj := {| name := "NRAS"; mods := [] |};
              obj_key := "sub"; obj_name := "BRAF";
              view_residue := "S"; view_position := "601" |} in
  snd (make_indra_json c) = Ok v
  /\ PyStr.contains "IS" (PyStr.upper (rel c)) = true
  /\ name (subj v) = id2 c /\ mods (subj v) = mods2 c
  /\ obj_name v = id1 c
  /\ exists m rest, mods1 c = m :: rest /\
       view_residue v = residue m /\ view_position v = position m.
Proof.
  intros c v. split; [reflexivity|]. split; [reflexivity|].
  apply (proj1 (proj1 (C9_view_reading_direction c) v eq_refl) eq_refl).
Defined.

Lemma C10_witness :
  let c := mk_causality "MAPK1" "upregulates-expression" "FOS" [] [] in
  mods_of (object_side (PyStr.upper (rel c))) c = []
  /\ indra_relation_map !! PyStr.upper (rel c) = Some "IncreaseAmount"
  /\ snd (make_indra_json c) = Raise IndexError.
Proof.
  intros c. split; [reflexivity|]. split; [reflexivity|].
  apply (proj1 (C10_empty_object_mods_raise c eq_refl) "IncreaseAmount"
           eq_refl).
Defined.

Lemma C10_counterexample :
  let c := mk_causality "MAPK1" "modulates" "RPTOR" [] [] in
  mods_of (object_side (PyStr.upper (rel c))) c = []
  /\ snd (make_indra_json c) = Raise (KeyError "MODULATES")
  /\ snd (make_indra_json c) <> Raise IndexError.
Proof.
  intros c. split; [reflexivity|]. split; [reflexivity|].
  intros H. vm_compute in H. discriminate.
Qed.


(** * Further properties of the module *)

(** ** The view builder and the tables *)

Lemma indra_relation_map_None (R : string) :
  indra_relation_map !! R = None <-> R ∉ indra_relation_pairs.*1.
Proof. symmetry. apply not_elem_of_list_to_map. Qed.

(** X1: the builder raises KeyError exactly when the upper-cased relation is
    none of the seven names of its table, and the error names the
    upper-cased relation. *)
Theorem make_indra_json_key_error_iff (c : causality) (k : string) :
  snd (make_indra_json c) = Raise (KeyError k)
  <-> k = PyStr.upper (rel c)
      /\ PyStr.upper (rel c) ∉
           [ "PHOSPHORYLATES"; "IS-PHOSPHORYLATED-BY";
             "IS-DEPHOSPHORYLATED-BY"; "UPREGULATES-EXPRESSION";
             "EXPRESSION-IS-UPREGULATED-BY"; "DOWNREGULATES-EXPRESSION";
             "EXPRESSION-IS-DOWNREGULATED-BY" ].
Proof.
  rewrite make_indra_json_unfold. cbn [snd].
  change [ "PHOSPHORYLATES"; "IS-PHOSPHORYLATED-BY";
           "IS-DEPHOSPHORYLATED-BY"; "UPREGULATES-EXPRESSION";
           "EXPRESSION-IS-UPREGULATED-BY"; "DOWNREGULATES-EXPRESSION";
           "EXPRESSION-IS-DOWNREGULATED-BY" ]
    with (indra_relation_pairs.*1).
  rewrite <- indra_relation_map_None.
  destruct (indra_relation_map !! PyStr.upper (rel c)) as [ty|] eqn:Hl.
  - split.
    + destruct (mods_of _ c); discriminate.
    + intros [_ H]. discriminate.
  - split.
    + intros [= <-]. now split.
    + now intros [-> _].
Qed.

(** X2: the letter case of the relation does not matter: a record and its
    copy with the relation written in another case give the same rewritten
    record and the same view or exception. *)
Theorem make_indra_json_case_insensitive (c : causality) (r' : string) :
  PyStr.upper r' = PyStr.upper (rel c) ->
  make_indra_json (set_rel r' c) = make_indra_json c.
Proof.
  intros H. rewrite !make_indra_json_unfold. cbn [rel set_rel]. rewrite H.
  f_equal.
Qed.

(** X3: the keys of a view agree with its type: a Phosphorylation or a
    Dephosphorylation has its agents under 'enz' and 'sub', an
    IncreaseAmount or a DecreaseAmount under 'subj' and 'obj'. *)
Theorem view_keys_agree_with_type (c : causality) (v : indra_json) :
  snd (make_indra_json c) = Ok v ->
  (type v ∈ ["Phosphorylation"; "Dephosphorylation"]
   /\ subj_key v = "enz" /\ obj_key v = "sub")
  \/ (type v ∈ ["IncreaseAmount"; "DecreaseAmount"]
      /\ subj_key v = "subj" /\ obj_key v = "obj").
Proof.
  rewrite make_indra_json_unfold. cbn [snd].
  destruct (indra_relation_map !! PyStr.upper (rel c)) as [ty|] eqn:Hl;
    [|discriminate].
  destruct (mods_of _ c) as [|m rest]; [discriminate|].
  intros [= <-]. cbn [type subj_key obj_key].
  apply indra_relation_map_keys in Hl. unfold indra_relation_pairs in Hl.
  rewrite !list_elem_of_In. cbn [In].
  repeat (apply elem_of_cons in Hl as [[= -> ->]|Hl]);
    try (now apply elem_of_nil in Hl);
    vm_compute; tauto.
Qed.

(** X4: how the vocabulary meets the table of the builder.  Of the verbs of
    the source-given table, exactly "dephosphorylation" and "modulate" give
    a relation the builder has no entry for; of the verbs of the
    target-given table, exactly "activate" and "modulate". *)
Theorem verbs_without_a_view (verb v : string) :
  (target_rel_map !! verb = Some v ->
   indra_relation_map !! PyStr.upper v = None
   <-> verb ∈ ["dephosphorylation"; "modulate"])
  /\ (source_rel_map !! verb = Some v ->
      indra_relation_map !! PyStr.upper v = None
      <-> verb ∈ ["activate"; "modulate"]).
Proof.
  split; intros H; apply elem_of_list_to_map_2 in H;
    rewrite list_elem_of_In; cbn [In];
    repeat (apply elem_of_cons in H as [[= -> ->]|H]);
    try (now apply elem_of_nil in H);
    (split; [intros Hc; vm_compute in Hc; try discriminate; tauto
            |intros Hin; vm_compute; intuition (try discriminate)]).
Qed.

(** ** Building the views of a list of edges *)

Lemma make_indra_json_snd_fst (r : causality) :
  make_indra_json r
  = (set_rel (PyStr.upper (rel r)) r, snd (make_indra_json r)).
Proof. rewrite <- make_indra_json_fst. now destruct (make_indra_json r). Qed.

Lemma make_indra_json_all_views (result : list causality)
  (js : list indra_json) :
  Forall2 (fun r j => snd (make_indra_json r) = Ok j) result js ->
  make_indra_json_all result
  = (map (fun r => set_rel (PyStr.upper (rel r)) r) result, Ok js).
Proof.
  induction 1 as [|r j rest js Hr _ IH]; [reflexivity|].
  cbn [make_indra_json_all map].
  now rewrite (make_indra_json_snd_fst r), Hr, IH.
Qed.

Lemma make_indra_json_all_ok (result : list causality) :
  forall js : list indra_json,
    snd (make_indra_json_all result) = Ok js ->
    Forall2 (fun r j => snd (make_indra_json r) = Ok j) result js.
Proof.
  induction result as [|r rest IH]; intros js; cbn [make_indra_json_all].
  - intros [= <-]. constructor.
  - rewrite (make_indra_json_snd_fst r).
    destruct (snd (make_indra_json r)) as [j|e] eqn:Hr; [|discriminate].
    destruct (make_indra_json_all rest) as [rest' [js'|e]];
      [|discriminate].
    intros [= <-]. constructor; [exact Hr|]. now apply IH.
Qed.

(** X5: the list comprehension succeeds exactly when every edge has a view,
    and then gives the views of the edges in their order, one for one, and
    leaves every edge with its relation upper-cased. *)
Theorem make_indra_json_all_ok_iff (result : list causality)
  (js : list indra_json) :
  snd (make_indra_json_all result) = Ok js
  <-> Forall2 (fun r j => snd (make_indra_json r) = Ok j) result js
      /\ fst (make_indra_json_all result)
         = map (fun r => set_rel (PyStr.upper (rel r)) r) result.
Proof.
  split.
  - intros H%make_indra_json_all_ok. split; [exact H|].
    now rewrite (make_indra_json_all_views result js H).
  - intros [H _]. now rewrite (make_indra_json_all_views result js H).
Qed.

(** X6: when the edge at index [i] is the first without a view, the list
    comprehension raises the exception of that edge; the edges up to and
    including it are left with their relation upper-cased, the edges behind
    it untouched. *)
Theorem make_indra_json_all_raises_at (result : list causality) (i : nat)
  (r : causality) (e : exn) :
  result !! i = Some r ->
  Forall (fun r' => exists j, snd (make_indra_json r') = Ok j)
    (take i result) ->
  snd (make_indra_json r) = Raise e ->
  make_indra_json_all result
  = ((map (fun r => set_rel (PyStr.upper (rel r)) r) (take (S i) result)
      ++ drop (S i) result)%list,
     Raise e).
Proof.
  revert i. induction result as [|r0 rest IH]; intros i Hi Hok He;
    [discriminate|].
  destruct i as [|i]; cbn in Hi.
  - injection Hi as ->. cbn [make_indra_json_all].
    rewrite (make_indra_json_snd_fst r), He. cbn. now rewrite drop_0.
  - cbn [take] in Hok. apply Forall_cons in Hok as [[j Hj] Hok].
    cbn [make_indra_json_all].
    rewrite (make_indra_json_snd_fst r0), Hj, (IH i Hi Hok He).
    reflexivity.
Qed.

(** ** The entity arguments *)

Lemma names_cases (a : option kqml_arg) :
  (falsy_arg a = true /\ _get_kqml_names a = None)
  \/ (falsy_arg a = false /\
      exists n ns, _get_kqml_names a = Some (n :: ns)).
Proof.
  destruct a as [[n|[|n ns]]|]; cbn; eauto 6.
Qed.

(** X7: [_get_kqml_names] answers [None] exactly for a missing or an empty
    argument and never answers with an empty list; of a single agent it
    gives the one name, of a list of agents the names in their order. *)
Theorem _get_kqml_names_never_empty (a : option kqml_arg) :
  _get_kqml_names a <> Some []
  /\ (_get_kqml_names a = None <-> falsy_arg a = true)
  /\ (forall n, a = Some (KQMLAgent n) -> _get_kqml_names a = Some [n])
  /\ (forall n ns, a = Some (KQMLAgents (n :: ns)) ->
        _get_kqml_names a = Some (n :: ns)).
Proof.
  repeat split.
  - now destruct a as [[n|[|n ns]]|].
  - now destruct a as [[n|[|n ns]]|].
  - now destruct a as [[n|[|n ns]]|].
  - now intros n ->.
  - now intros n ns ->.
Qed.

(** ** The path handler *)

Section GraphHandlers.

Context {Float : Type}.
Variable str : Float -> string.
Variable CA : CausalityAgent Float.

Lemma respond_find_causal_path_run (c : Content) (w : World)
  (s t : string) (ss ts : list string) :
  _get_kqml_names (SOURCE c) = Some (s :: ss) ->
  _get_kqml_names (TARGET c) = Some (t :: ts) ->
  let q := {| source := {| id := s; pSite := "" |};
              target := {| id := t; pSite := "" |};
              direction := DIRECTION c |} in
  respond_find_causal_path CA c w
  = match find_causality CA q with
    | None => (logged w [CA_find_causality q], Ok (FAILURE "NO_PATH_FOUND"))
    | Some r =>
        match snd (make_indra_json r) with
        | Ok v =>
            (logged w [ CA_find_causality q;
                        send (add_provenance
                                (set_rel (PyStr.upper (rel r)) r)) ],
             Ok (SUCCESS_paths [v]))
        | Raise e => (logged w [CA_find_causality q], Raise e)
        end
    end.
Proof.
  intros Hs Ht q. unfold respond_find_causal_path.
  rewrite (names_not_falsy _ _ _ Hs), (names_not_falsy _ _ _ Ht), Hs, Ht.
  cbn [orb]. unfold bind at 1, CA_call_find_causality, bind at 1, log, ret.
  fold q. destruct (find_causality CA q) as [r|]; [|reflexivity].
  rewrite (make_indra_json_snd_fst r).
  destruct (snd (make_indra_json r)) as [v|e]; [|reflexivity].
  unfold bind, lift, send_provenance, log, ret.
  now rewrite logged_logged.
Qed.

(** X8: the path handler answers MISSING_MECHANISM exactly when the source
    or the target argument is missing or empty, and then it has asked the
    agent nothing and sent nothing. *)
Theorem respond_find_causal_path_missing_iff (c : Content) (w : World) :
  (snd (respond_find_causal_path CA c w) = Ok (FAILURE "MISSING_MECHANISM")
   <-> falsy_arg (SOURCE c) = true \/ falsy_arg (TARGET c) = true)
  /\ (snd (respond_find_causal_path CA c w)
      = Ok (FAILURE "MISSING_MECHANISM") ->
      fst (respond_find_causal_path CA c w) = w).
Proof.
  destruct (names_cases (SOURCE c)) as [[Hfs Hs]|[Hfs (s & ss & Hs)]];
    destruct (names_cases (TARGET c)) as [[Hft Ht]|[Hft (t & ts & Ht)]];
    try (unfold respond_find_causal_path; rewrite Hfs, Hft; cbn;
         split; [split; [intros _; auto|reflexivity]|reflexivity]).
  rewrite (respond_find_causal_path_run c w s t ss ts Hs Ht). cbn zeta.
  rewrite Hfs, Hft.
  destruct (find_causality CA _) as [r|]; cbn [snd].
  - destruct (snd (make_indra_json r)); cbn [snd];
      (split; [split; [discriminate|intros [|]; discriminate]
              |discriminate]).
  - split; [split; [discriminate|intros [|]; discriminate]|discriminate].
Qed.


(** X10: when the path that is found has no view, the handler raises the
    exception of the builder and sends no provenance message: the only
    thing it has done is to ask the agent. *)
Theorem respond_find_causal_path_raises (c : Content) (w : World)
  (s t : string) (ss ts : list string) (r : causality) (e : exn) :
  _get_kqml_names (SOURCE c) = Some (s :: ss) ->
  _get_kqml_names (TARGET c) = Some (t :: ts) ->
  let q := {| source := {| id := s; pSite := "" |};
              target := {| id := t; pSite := "" |};
              direction := DIRECTION c |} in
  find_causality CA q = Some r ->
  snd (make_indra_json r) = Raise e ->
  respond_find_causal_path CA c w
  = (logged w [CA_find_causality q], Raise e).
Proof.
  intros Hs Ht q Hq He.
  rewrite (respond_find_causal_path_run c w s t ss ts Hs Ht). cbn zeta.
  fold q. now rewrite Hq, He.
Qed.

End GraphHandlers.

(** ** The discovery handlers *)

Section DiscoveryHandlers.

Context {Float : Type}.
Variable str : Float -> string.
Variable CA : CausalityAgent Float.

Lemma respond_find_causality_target_cases (c : Content) (w : World) :
  respond_find_causality_target CA c w
  = (w, Ok (FAILURE "MISSING_MECHANISM"))
  \/ exists n ns v,
       _get_kqml_names (SOURCE c) = Some (n :: ns)
       /\ rel_lookup target_rel_map (TYPE c) = Some v
       /\ respond_find_causality_target CA c w
          = discovery_run CA
              {| query_id := n; query_pSite := " "; query_rel := v |} w.
Proof.
  destruct (names_cases (SOURCE c)) as [[Hf Hn]|[Hf (n & ns & Hn)]].
  - left. unfold respond_find_causality_target. now rewrite Hf.
  - destruct (rel_lookup target_rel_map (TYPE c)) as [v|] eqn:Hv.
    + right. exists n, ns, v. repeat split; try assumption.
      now apply respond_find_causality_target_run with (ns := ns).
    + left. unfold respond_find_causality_target. now rewrite Hf, Hn, Hv.
Qed.

Lemma respond_find_causality_source_cases (c : Content) (w : World) :
  respond_find_causality_source CA c w
  = (w, Ok (FAILURE "MISSING_MECHANISM"))
  \/ exists n ns v,
       _get_kqml_names (TARGET c) = Some (n :: ns)
       /\ rel_lookup source_rel_map (TYPE c) = Some v
       /\ respond_find_causality_source CA c w
          = discovery_run CA
              {| query_id := n; query_pSite := " "; query_rel := v |} w.
Proof.
  destruct (names_cases (TARGET c)) as [[Hf Hn]|[Hf (n & ns & Hn)]].
  - left. unfold respond_find_causality_source. now rewrite Hf.
  - destruct (rel_lookup source_rel_map (TYPE c)) as [v|] eqn:Hv.
    + right. exists n, ns, v. repeat split; try assumption.
      now apply respond_find_causality_source_run with (ns := ns).
    + left. unfold respond_find_causality_source. now rewrite Hf, Hn, Hv.
Qed.

Lemma discovery_run_world (q : targets_query) (w : World) :
  fst (discovery_run CA q w)
  = logged w (CA_find_causality_targets q
              :: map (fun r => send (add_provenance r))
                   (find_causality_targets CA q)).
Proof.
  unfold discovery_run. now destruct (find_causality_targets CA q).
Qed.

(** X11: once the entity and the verb are accepted, a discovery handler
    asks the agent once and then sends one provenance message per edge of
    the answer, in the order of the answer and with the relation as the
    agent wrote it; this happens before any view is built, so the messages
    are out even when the handler then raises. *)
Theorem discovery_provenance_before_views (c : Content) (w : World)
  (n : string) (ns : list string) (v : string) :
  let q := {| query_id := n; query_pSite := " "; query_rel := v |} in
  (_get_kqml_names (SOURCE c) = Some (n :: ns) ->
   rel_lookup target_rel_map (TYPE c) = Some v ->
   fst (respond_find_causality_target CA c w)
   = logged w (CA_find_causality_targets q
               :: map (fun r => send (add_provenance r))
                    (find_causality_targets CA q)))
  /\ (_get_kqml_names (TARGET c) = Some (n :: ns) ->
      rel_lookup source_rel_map (TYPE c) = Some v ->
      fst (respond_find_causality_source CA c w)
      = logged w (CA_find_causality_targets q
                  :: map (fun r => send (add_provenance r))
                       (find_causality_targets CA q))).
Proof.
  intros q. split; intros Hn Hv.
  - rewrite (respond_find_causality_target_run CA c w n ns v Hn Hv).
    apply discovery_run_world.
  - rewrite (respond_find_causality_source_run CA c w n ns v Hn Hv).
    apply discovery_run_world.
Qed.



(** X13: the path handler and the two discovery handlers never move the
    correlation cursor: whatever the request and the outcome, the world
    they leave is the world they found plus the events they logged. *)
Theorem graph_handlers_keep_the_cursor (c : Content) (w : World) :
  (exists evs, fst (respond_find_causal_path CA c w) = logged w evs)
  /\ (exists evs, fst (respond_find_causality_target CA c w) = logged w evs)
  /\ (exists evs, fst (respond_find_causality_source CA c w) = logged w evs).
Proof.
  repeat split.
  - destruct (names_cases (SOURCE c)) as [[Hfs Hs]|[Hfs (s & ss & Hs)]];
      destruct (names_cases (TARGET c)) as [[Hft Ht]|[Hft (t & ts & Ht)]];
      try (exists []; unfold respond_find_causal_path; rewrite Hfs, Hft;
           cbn; now rewrite logged_nil).
    rewrite (respond_find_causal_path_run CA c w s t ss ts Hs Ht).
    cbn zeta. destruct (find_causality CA _) as [r|]; [|eauto].
    destruct (snd (make_indra_json r)); eauto.
  - destruct (respond_find_causality_target_cases c w)
      as [->|(n & ns & v & _ & _ & ->)].
    + exists []. cbn. now rewrite logged_nil.
    + rewrite discovery_run_world. eauto.
  - destruct (respond_find_causality_source_cases c w)
      as [->|(n & ns & v & _ & _ & ->)].
    + exists []. cbn. now rewrite logged_nil.
    + rewrite discovery_run_world. eauto.
Qed.

(** X14: of the entity argument only the first name counts, and the fields
    a handler does not read do not count at all: two requests that agree on
    the first name and on what the handler reads besides are served alike
    in every world. *)
Theorem handlers_use_the_first_name (c1 c2 : Content) (w : World)
  (n : string) (ns1 ns2 : list string) :
  (_get_kqml_names (SOURCE c1) = Some (n :: ns1) ->
   _get_kqml_names (SOURCE c2) = Some (n :: ns2) ->
   TYPE c1 = TYPE c2 ->
   respond_find_causality_target CA c1 w
   = respond_find_causality_target CA c2 w)
  /\ (_get_kqml_names (TARGET c1) = Some (n :: ns1) ->
      _get_kqml_names (TARGET c2) = Some (n :: ns2) ->
      TYPE c1 = TYPE c2 ->
      respond_find_causality_source CA c1 w
      = respond_find_causality_source CA c2 w)
  /\ (_get_kqml_names (SOURCE c1) = Some (n :: ns1) ->
      _get_kqml_names (SOURCE c2) = Some (n :: ns2) ->
      respond_dataset_correlated_entity str CA c1 w
      = respond_dataset_correlated_entity str CA c2 w).
Proof.
  repeat split.
  - intros H1 H2 Hty.
    destruct (rel_lookup target_rel_map (TYPE c1)) as [v|] eqn:Hv.
    + rewrite (respond_find_causality_target_run CA c1 w n ns1 v H1 Hv).
      rewrite Hty in Hv.
      now rewrite (respond_find_causality_target_run CA c2 w n ns2 v H2 Hv).
    + unfold respond_find_causality_target.
      rewrite (names_not_falsy _ _ _ H1), (names_not_falsy _ _ _ H2).
      rewrite H1, H2, <- Hty, Hv. reflexivity.
  - intros H1 H2 Hty.
    destruct (rel_lookup source_rel_map (TYPE c1)) as [v|] eqn:Hv.
    + rewrite (respond_find_causality_source_run CA c1 w n ns1 v H1 Hv).
      rewrite Hty in Hv.
      now rewrite (respond_find_causality_source_run CA c2 w n ns2 v H2 Hv).
    + unfold respond_find_causality_source.
      rewrite (names_not_falsy _ _ _ H1), (names_not_falsy _ _ _ H2).
      rewrite H1, H2, <- Hty, Hv. reflexivity.
  - intros H1 H2.
    now rewrite !(respond_dataset_correlated_entity_run str CA _ w n _)
      by eassumption.
Qed.

(** X15: the correlation handler answers MISSING_MECHANISM exactly when the
    source argument is missing or empty, and then the cursor has not moved
    and the agent was not called. *)
Theorem respond_dataset_correlated_entity_missing_iff (c : Content)
  (w : World) :
  (snd (respond_dataset_correlated_entity str CA c w)
   = Ok (FAILURE "MISSING_MECHANISM")
   <-> falsy_arg (SOURCE c) = true)
  /\ (falsy_arg (SOURCE c) = true ->
      fst (respond_dataset_correlated_entity str CA c w) = w).
Proof.
  destruct (names_cases (SOURCE c)) as [[Hf Hn]|[Hf (n & ns & Hn)]].
  - unfold respond_dataset_correlated_entity. rewrite Hf. cbn.
    repeat split; auto.
  - rewrite (respond_dataset_correlated_entity_run str CA c w n ns Hn).
    rewrite Hf. cbn [snd]. split; [|discriminate]. split; [|discriminate].
    destruct (snd (find_next_correlation CA n (corr_ind w))); discriminate.
Qed.

End DiscoveryHandlers.

(** ** Disease names *)






(** ** The lookup handlers *)

Lemma fold_left_snoc {A B} (f : A -> B) (l : list A) (acc : list B) :
  fold_left (fun acc x => acc ++ [f x])%list l acc = (acc ++ map f l)%list.
Proof.
  revert acc. induction l as [|x l IH]; intros acc; cbn.
  - now rewrite app_nil_r.
  - rewrite IH. now rewrite <- app_assoc.
Qed.

(** X17: the loops that rebuild the answer of [find_mutex] for the reply
    change nothing: every group comes out with its score and its genes, in
    the order the agent gave. *)
Theorem reorganize_mutex_keeps_the_groups {Float}
  (result : list (mutex_group Float)) :
  reorganize_mutex result = result.
Proof.
  unfold reorganize_mutex.
  rewrite (fold_left_snoc
             (fun r => {| score := score r;
                          group := fold_left
                                     (fun genes gene => genes ++ [gene])%list
                                     (group r) [] |})).
  cbn [app]. rewrite <- (map_id result) at 2. apply map_ext.
  intros [sc gr]. cbn [score group]. f_equal.
  rewrite (fold_left_snoc (fun g => g)). cbn [app]. apply map_id.
Qed.

Ltac break_hyps :=
  repeat match goal with
         | H : _ /\ _ |- _ => destruct H
         | H : exists _, _ |- _ => destruct H
         | H : _ \/ _ |- _ => destruct H
         end.

Ltac absurd_case := intros; break_hyps; first [discriminate | congruence].

Section LookupProperties.

Context {Float : Type}.
Variable hgnc : hgnc_client.
Variable CA : LookupAgent Float.

(** X18: the failures of the mutex handler in the order the code tests for
    them.  MISSING_MECHANISM says that the gene or the disease argument is
    missing or empty; INVALID_DISEASE says that both are there and the
    sanitized first disease name has no TCGA abbreviation;
    NO_MUTEX_GENES_FOUND says that the abbreviation was found and the agent
    has no group; and a success carries the agent's groups as they are. *)
Theorem respond_find_mutex_reasons (c : LookupContent) :
  (respond_find_mutex CA c = Plain (FAILURE "MISSING_MECHANISM")
   <-> falsy_arg (GENE c) = true \/ falsy_arg (DISEASE c) = true)
  /\ (respond_find_mutex CA c = Plain (FAILURE "INVALID_DISEASE")
      <-> exists g gs d ds,
            _get_kqml_names (GENE c) = Some (g :: gs)
            /\ _get_kqml_names (DISEASE c) = Some (d :: ds)
            /\ get_tcga_abbr CA (_sanitize_disase_name d) = None)
  /\ (forall mutex,
        respond_find_mutex CA c = SUCCESS_mutex mutex
        <-> mutex <> []
            /\ exists g gs d ds abbr,
                 _get_kqml_names (GENE c) = Some (g :: gs)
                 /\ _get_kqml_names (DISEASE c) = Some (d :: ds)
                 /\ get_tcga_abbr CA (_sanitize_disase_name d) = Some abbr
                 /\ find_mutex CA g abbr = mutex).
Proof.
  unfold respond_find_mutex, make_failure.
  destruct (names_cases (GENE c)) as [[Hfg Hg]|[Hfg (g & gs & Hg)]];
    rewrite Hfg; cbv iota.
  { split; [|split; [|intros mutex]]; split; try absurd_case.
    intros _. now left. }
  rewrite Hg; cbv iota.
  destruct (names_cases (DISEASE c)) as [[Hfd Hd]|[Hfd (d & ds & Hd)]];
    rewrite Hfd; cbv iota.
  { split; [|split; [|intros mutex]]; split; try absurd_case.
    intros _. now right. }
  rewrite Hd; cbv iota.
  destruct (get_tcga_abbr CA (_sanitize_disase_name d)) as [abbr|] eqn:Ha.
  - destruct (find_mutex CA g abbr) as [|m ms] eqn:Hm.
    + split; [|split; [|intros mutex]]; split; absurd_case.
    + rewrite reorganize_mutex_keeps_the_groups.
      split; [|split; [|intros mutex]]; split; try absurd_case.
      intros [= <-]. split; [discriminate|].
      exists g, gs, d, ds, abbr. auto.
  - split; [|split; [|intros mutex]]; split; try absurd_case.
    intros _. exists g, gs, d, ds. auto.
Qed.

(** X19: the disease reaches the agent only through its sanitized first
    name: two requests for the same gene whose disease names sanitize to
    the same text get the same reply from the mutex handler and from the
    mutation significance handler. *)
Theorem disease_spelling_does_not_matter (c1 c2 : LookupContent)
  (d1 d2 : string) (ds1 ds2 : list string) :
  GENE c1 = GENE c2 ->
  _get_kqml_names (DISEASE c1) = Some (d1 :: ds1) ->
  _get_kqml_names (DISEASE c2) = Some (d2 :: ds2) ->
  _sanitize_disase_name d1 = _sanitize_disase_name d2 ->
  respond_find_mutex CA c1 = respond_find_mutex CA c2
  /\ respond_find_mutation_significance CA c1
     = respond_find_mutation_significance CA c2.
Proof.
  intros Hg H1 H2 Hd.
  unfold respond_find_mutex, respond_find_mutation_significance.
  rewrite Hg, (names_not_falsy _ _ _ H1), (names_not_falsy _ _ _ H2).
  rewrite H1, H2, Hd. split; reflexivity.
Qed.

(** X20: the mutation significance handler.  A missing gene still gets
    MISSING_MECHANISM although the failure built for it is not returned
    (line 255); the same reason is given for a missing disease and for an
    answer of the agent that is nothing or the empty text, so a success
    never carries an empty significance. *)
Theorem respond_find_mutation_significance_reasons (c : LookupContent) :
  (respond_find_mutation_significance CA c
   = Plain (FAILURE "MISSING_MECHANISM")
   <-> falsy_arg (GENE c) = true \/ falsy_arg (DISEASE c) = true
       \/ exists g gs d ds abbr,
            _get_kqml_names (GENE c) = Some (g :: gs)
            /\ _get_kqml_names (DISEASE c) = Some (d :: ds)
            /\ get_tcga_abbr CA (_sanitize_disase_name d) = Some abbr
            /\ nonempty (find_mutation_significance CA g abbr) = None)
  /\ (forall mutsig,
        respond_find_mutation_significance CA c = SUCCESS_mutsig mutsig ->
        mutsig <> "").
Proof.
  unfold respond_find_mutation_significance, make_failure.
  destruct (names_cases (GENE c)) as [[Hfg Hg]|[Hfg (g & gs & Hg)]];
    rewrite Hfg, Hg; cbv iota zeta.
  { split; [split|intros mutsig]; try absurd_case. intros _. now left. }
  destruct (names_cases (DISEASE c)) as [[Hfd Hd]|[Hfd (d & ds & Hd)]];
    rewrite Hfd; cbv iota.
  { split; [split|intros mutsig]; try absurd_case.
    intros _. right. now left. }
  rewrite Hd; cbv iota.
  destruct (get_tcga_abbr CA (_sanitize_disase_name d)) as [abbr|] eqn:Ha.
  - destruct (nonempty (find_mutation_significance CA g abbr))
      as [res|] eqn:Hres.
    + split; [split|intros mutsig]; try absurd_case.
      intros [= <-] ->. unfold nonempty in Hres.
      destruct (find_mutation_significance CA g abbr) as [s0|];
        [|discriminate].
      destruct (String.eqb s0 "") eqn:He; [discriminate|].
      injection Hres as ->. discriminate.
    + split; [split|intros mutsig]; try absurd_case.
      intros _. right. right. exists g, gs, d, ds, abbr. auto.
  - split; [split|intros mutsig]; absurd_case.
Qed.

(** X21: the cellular location handler never answers a request that names
    genes.  The call that would bind [result] is commented out, so with
    genes the handler stops on the unbound name; the only reply it ever
    gives is MISSING_MECHANISM, for a missing or empty argument. *)
Theorem respond_find_cellular_location_never_answers (c : LookupContent) :
  (falsy_arg (GENES c) = false ->
   respond_find_cellular_location c = @NameError Float "result")
  /\ (forall r : lookup_reply Float,
        respond_find_cellular_location c = Replies r ->
        r = Plain (FAILURE "MISSING_MECHANISM")
        /\ falsy_arg (GENES c) = true).
Proof.
  unfold respond_find_cellular_location, make_failure.
  destruct (names_cases (GENES c)) as [[Hf Hn]|[Hf (g & gs & Hn)]];
    rewrite Hf; cbv iota.
  - split; [discriminate|]. now intros r [= <-].
  - rewrite Hn. split; [reflexivity|discriminate].
Qed.

(** X22: the agent built for a gene name keeps the name and has no
    database reference but 'HGNC' and 'UP'; it has a UniProt reference only
    next to an HGNC reference, the references are never empty texts, and
    they are what [hgnc_client] gives for the name and for its HGNC id. *)
Theorem _get_agent_from_gene_name_refs (gene_name : string) :
  let a := _get_agent_from_gene_name hgnc gene_name in
  Agent_name a = gene_name
  /\ (forall k, is_Some (db_refs a !! k) -> k = "HGNC" \/ k = "UP")
  /\ (is_Some (db_refs a !! "UP") -> is_Some (db_refs a !! "HGNC"))
  /\ db_refs a !! "HGNC" = nonempty (get_hgnc_id hgnc gene_name)
  /\ db_refs a !! "UP"
     = match nonempty (get_hgnc_id hgnc gene_name) with
       | Some hgnc_id => nonempty (get_uniprot_id hgnc hgnc_id)
       | None => None
       end
  /\ db_refs a !! "HGNC" <> Some "" /\ db_refs a !! "UP" <> Some "".
Proof.
  assert (Hne : forall o, nonempty o <> Some "").
  { intros [s0|]; cbn; [|discriminate].
    destruct (String.eqb s0 "") eqn:He; [discriminate|].
    intros [= ->]. discriminate. }
  cbn zeta. unfold _get_agent_from_gene_name. cbn [Agent_name db_refs].
  destruct (nonempty (get_hgnc_id hgnc gene_name)) as [h|] eqn:Hh;
    cbv iota.
  - destruct (nonempty (get_uniprot_id hgnc h)) as [u|] eqn:Hu;
      repeat match goal with |- _ /\ _ => split end.
    + reflexivity.
    + intros k [x Hk]. destruct (decide (k = "UP")) as [|Hk1]; [auto|].
      rewrite lookup_insert_ne in Hk by congruence.
      destruct (decide (k = "HGNC")) as [|Hk2]; [auto|].
      rewrite lookup_insert_ne in Hk by congruence.
      now rewrite lookup_empty in Hk.
    + intros _. rewrite lookup_insert_ne by discriminate.
      rewrite lookup_insert_eq. eauto.
    + rewrite lookup_insert_ne by discriminate.
      now rewrite lookup_insert_eq.
    + now rewrite lookup_insert_eq.
    + rewrite lookup_insert_ne by discriminate.
      rewrite lookup_insert_eq, <- Hh. apply Hne.
    + rewrite lookup_insert_eq, <- Hu. apply Hne.
    + reflexivity.
    + intros k [x Hk]. destruct (decide (k = "HGNC")) as [|Hk2]; [auto|].
      rewrite lookup_insert_ne in Hk by congruence.
      now rewrite lookup_empty in Hk.
    + intros _. rewrite lookup_insert_eq. eauto.
    + now rewrite lookup_insert_eq.
    + rewrite lookup_insert_ne by discriminate. apply lookup_empty.
    + rewrite lookup_insert_eq, <- Hh. apply Hne.
    + rewrite lookup_insert_ne by discriminate. now rewrite lookup_empty.
  - repeat match goal with |- _ /\ _ => split end;
      try (rewrite lookup_empty; (reflexivity || discriminate)).
    + reflexivity.
    + intros k [x Hk]. now rewrite lookup_empty in Hk.
    + intros [x Hk]. now rewrite lookup_empty in Hk.
Qed.

(** X23: the upstreams handler hands all the names of the request to the
    agent, answers NO_UPSTREAM_FOUND exactly when the agent finds none, and
    otherwise replies with one agent per upstream, named after it and in
    the order of the agent's answer. *)
Theorem respond_find_common_upstreams_names (c : LookupContent)
  (g : string) (gs : list string) :
  _get_kqml_names (GENES c) = Some (g :: gs) ->
  let result := find_common_upstreams CA (g :: gs) in
  (respond_find_common_upstreams hgnc CA c
   = Plain (FAILURE "NO_UPSTREAM_FOUND") <-> result = [])
  /\ (result <> [] ->
      exists upstreams,
        respond_find_common_upstreams hgnc CA c = SUCCESS_upstreams upstreams
        /\ map Agent_name upstreams = result).
Proof.
  intros Hn result. unfold respond_find_common_upstreams, make_failure.
  rewrite (names_not_falsy _ _ _ Hn), Hn. fold result.
  assert (Hmap : forall l, map Agent_name (_get_genes_cljson hgnc l) = l).
  { intros l. unfold _get_genes_cljson. rewrite map_map. cbn. apply map_id. }
  destruct result as [|u us] eqn:Hres.
  - split; [easy|]. intros H. now contradiction H.
  - split; [split; discriminate|]. intros _. eexists. split; [reflexivity|].
    apply Hmap.
Qed.

(** X24: the handler that takes plain names answers INVALID_FORMAT exactly
    for a non-empty string, MISSING_MECHANISM exactly for no value, the
    empty string or the empty list, and its components are named after the
    agent's locations, in order and without database references. *)
Theorem respond_find_cellular_location_from_names_reasons
  (c : LookupContent) :
  (respond_find_cellular_location_from_names CA c
   = Plain (FAILURE "INVALID_FORMAT")
   <-> exists s, GENES_plain c = Some (PlainStr s) /\ s <> "")
  /\ (respond_find_cellular_location_from_names CA c
      = Plain (FAILURE "MISSING_MECHANISM")
      <-> GENES_plain c = None \/ GENES_plain c = Some (PlainStr "")
          \/ GENES_plain c = Some (PlainList []))
  /\ (forall components,
        respond_find_cellular_location_from_names CA c
        = SUCCESS_components components ->
        exists names,
          GENES_plain c = Some (PlainList names)
          /\ map Agent_name components
             = find_most_likely_cellular_location CA names
          /\ Forall (fun a => db_refs a = ∅) components).
Proof.
  assert (Hmap : forall l, map Agent_name (_get_default_list_cljson l) = l).
  { intros l. unfold _get_default_list_cljson. rewrite map_map. cbn.
    apply map_id. }
  assert (Hrefs : forall l,
             Forall (fun a => db_refs a = ∅) (_get_default_list_cljson l)).
  { intros l. induction l; constructor; [reflexivity|assumption]. }
  unfold respond_find_cellular_location_from_names, make_failure.
  destruct (GENES_plain c) as [[s0|[|n ns]]|]; cbn [falsy_plain].
  - destruct (String.eqb_spec s0 "") as [->|Hs].
    + split; [|split; [|intros components]]; try split; try absurd_case.
      intros _. auto.
    + split; [|split; [|intros components]]; try split; try absurd_case.
      intros _. eauto.
  - split; [|split; [|intros components]]; try split; try absurd_case.
    intros _. auto.
  - destruct (find_most_likely_cellular_location CA (n :: ns))
      as [|l ls] eqn:Hres.
    + split; [|split; [|intros components]]; try split; absurd_case.
    + split; [|split; [|intros components]]; try split; try absurd_case.
      intros [= <-]. exists (n :: ns). split; [reflexivity|]. split.
      * rewrite Hres. cbn [map Agent_name]. f_equal. apply Hmap.
      * constructor; [reflexivity|apply Hrefs].
  - split; [|split; [|intros components]]; try split; try absurd_case.
    intros _. auto.
Qed.

(** X25: the gene summary handler fails only for a missing or empty gene
    argument, with MISSING_MECHANISM although the failure built at line 433
    is not returned; for a named gene it always succeeds and passes on what
    the agent says, be it the empty text. *)
Theorem respond_find_gene_summary_always_answers (c : LookupContent) :
  (respond_find_gene_summary CA c = Plain (FAILURE "MISSING_MECHANISM")
   <-> falsy_arg (GENE c) = true)
  /\ (forall g gs,
        _get_kqml_names (GENE c) = Some (g :: gs) ->
        respond_find_gene_summary CA c
        = SUCCESS_geneSummary (find_gene_summary CA g))
  /\ (forall reason,
        respond_find_gene_summary CA c = Plain (FAILURE reason) ->
        reason = "MISSING_MECHANISM").
Proof.
  unfold respond_find_gene_summary, make_failure.
  destruct (names_cases (GENE c)) as [[Hf Hn]|[Hf (g & gs & Hn)]];
    rewrite Hf, Hn; cbv iota zeta.
  - repeat split; try absurd_case.
  - repeat split; try absurd_case.
Qed.

End LookupProperties.

(** ** The further properties at work on the small stores *)

Lemma X1_witness :
  let c := mk_causality "MAPK1" "modulates" "RPTOR" [] [] in
  snd (make_indra_json c) = Raise (KeyError "MODULATES")
  /\ "MODULATES" = PyStr.upper (rel c)
  /\ PyStr.upper (rel c) ∉
       [ "PHOSPHORYLATES"; "IS-PHOSPHORYLATED-BY";
         "IS-DEPHOSPHORYLATED-BY"; "UPREGULATES-EXPRESSION";
         "EXPRESSION-IS-UPREGULATED-BY"; "DOWNREGULATES-EXPRESSION";
         "EXPRESSION-IS-DOWNREGULATED-BY" ].
Proof.
  intros c. split; [reflexivity|].
  apply (proj1 (make_indra_json_key_error_iff c "MODULATES")). reflexivity.
Defined.

Lemma X2_witness :
  let c := mk_causality "MAPK1" "phosphorylates" "CREB1" []
             [ {| residue := "S"; position := "133" |} ] in
  PyStr.upper "Phosphorylates" = PyStr.upper (rel c)
  /\ make_indra_json (set_rel "Phosphorylates" c) = make_indra_json c.
Proof.
  intros c. split; [reflexivity|].
  apply (make_indra_json_case_insensitive c "Phosphorylates"). reflexivity.
Defined.

Lemma X3_witness :
  let c := mk_causality "MAPK1" "upregulates-expression" "FOS" []
             [ {| residue := "S"; position := "32" |} ] in
  let v := {| type := "IncreaseAmount"; subj_key := "subj";
              subj := {| name := "MAPK1"; mods := [] |};
              obj_key := "obj"; obj_name := "FOS";
              view_residue := "S"; view_position := "32" |} in
  snd (make_indra_json c) = Ok v
  /\ ((type v ∈ ["Phosphorylation"; "Dephosphorylation"]
       /\ subj_key v = "enz" /\ obj_key v = "sub")
      \/ (type v ∈ ["IncreaseAmount"; "DecreaseAmount"]
          /\ subj_key v = "subj" /\ obj_key v = "obj")).
Proof.
  intros c v. split; [reflexivity|].
  apply (view_keys_agree_with_type c v). reflexivity.
Defined.

Lemma X4_witness :
  source_rel_map !! "activate" = Some "expression-is-up"
  /\ (indra_relation_map !! PyStr.upper "expression-is-up" = None
      <-> "activate" ∈ ["activate"; "modulate"]).
Proof.
  split; [reflexivity|].
  apply (proj2 (verbs_without_a_view "activate" "expression-is-up")).
  reflexivity.
Defined.

Lemma X5_witness :
  let result :=
    [ mk_causality "MAPK1" "PHOSPHORYLATES" "JUND" []
        [ {| residue := "S"; position := "100" |} ];
      mk_causality "BRAF" "is-phosphorylated-by" "NRAS"
        [ {| residue := "S"; position := "601" |} ] [] ] in
  let js :=
    [ {| type := "Phosphorylation"; subj_key := "enz";
         subj := {| name := "MAPK1"; mods := [] |};
         obj_key := "sub"; obj_name := "JUND";
         view_residue := "S"; view_position := "100" |};
      {| type := "Phosphorylation"; subj_key := "enz";
         subj := {| name := "NRAS"; mods := [] |};
         obj_key := "sub"; obj_name := "BRAF";
         view_residue := "S"; view_position := "601" |} ] in
  snd (make_indra_json_all result) = Ok js
  /\ Forall2 (fun r j => snd (make_indra_json r) = Ok j) result js
  /\ fst (make_indra_json_all result)
     = map (fun r => set_rel (PyStr.upper (rel r)) r) result.
Proof.
  intros result js. split; [reflexivity|].
  apply (proj1 (make_indra_json_all_ok_iff result js)). reflexivity.
Defined.

Lemma X6_witness :
  let e1 := mk_causality "MAPK1" "phosphorylates" "JUND" []
              [ {| residue := "S"; position := "100" |} ] in
  let e2 := mk_causality "MAPK1" "modulates" "RPTOR" [] [] in
  let e3 := mk_causality "MAPK1" "upregulates-expression" "FOS" [] [] in
  [e1; e2; e3] !! 1%nat = Some e2
  /\ Forall (fun r' => exists j, snd (make_indra_json r') = Ok j)
       (take 1 [e1; e2; e3])
  /\ snd (make_indra_json e2) = Raise (KeyError "MODULATES")
  /\ make_indra_json_all [e1; e2; e3]
     = ([ set_rel "PHOSPHORYLATES" e1; set_rel "MODULATES" e2; e3 ],
        Raise (KeyError "MODULATES")).
Proof.
  intros e1 e2 e3.
  assert (Hok : Forall (fun r' => exists j, snd (make_indra_json r') = Ok j)
                  (take 1 [e1; e2; e3])).
  { constructor; [eexists; reflexivity|constructor]. }
  split; [reflexivity|]. split; [exact Hok|]. split; [reflexivity|].
  apply (make_indra_json_all_raises_at [e1; e2; e3] 1 e2
           (KeyError "MODULATES") eq_refl Hok eq_refl).
Defined.

Lemma X7_witness :
  Some (KQMLAgents ["AKT1"; "BRAF"]) = Some (KQMLAgents ("AKT1" :: ["BRAF"]))
  /\ _get_kqml_names (Some (KQMLAgents ["AKT1"; "BRAF"]))
     = Some ["AKT1"; "BRAF"].
Proof.
  split; [reflexivity|].
  apply (proj2 (proj2 (proj2 (_get_kqml_names_never_empty
                                (Some (KQMLAgents ["AKT1"; "BRAF"])))))
           "AKT1" ["BRAF"] eq_refl).
Defined.

Lemma X8_witness :
  let c := request None (Some "JUND") None in
  (falsy_arg (SOURCE c) = true \/ falsy_arg (TARGET c) = true)
  /\ snd (respond_find_causal_path demo_CA c initial_world)
     = Ok (FAILURE "MISSING_MECHANISM").
Proof.
  intros c.
  assert (H : falsy_arg (SOURCE c) = true \/ falsy_arg (TARGET c) = true)
    by (left; reflexivity).
  split; [exact H|].
  apply (proj2 (proj1 (respond_find_causal_path_missing_iff demo_CA c
                         initial_world)) H).
Defined.


Lemma X10_witness :
  let c := request (Some "MAPK1") (Some "RPTOR") None in
  let q := {| source := {| id := "MAPK1"; pSite := "" |};
              target := {| id := "RPTOR"; pSite := "" |};
              direction := DIRECTION c |} in
  let r := mk_causality "MAPK1" "MODULATES" "RPTOR" [] [] in
  _get_kqml_names (SOURCE c) = Some ["MAPK1"]
  /\ _get_kqml_names (TARGET c) = Some ["RPTOR"]
  /\ find_causality demo_CA q = Some r
  /\ snd (make_indra_json r) = Raise (KeyError "MODULATES")
  /\ respond_find_causal_path demo_CA c initial_world
     = (logged initial_world [CA_find_causality q],
        Raise (KeyError "MODULATES")).
Proof.
  intros c q r. repeat (split; [reflexivity|]).
  apply (respond_find_causal_path_raises demo_CA c initial_world
           "MAPK1" "RPTOR" [] [] r (KeyError "MODULATES")
           eq_refl eq_refl eq_refl eq_refl).
Defined.

Lemma X11_witness :
  let c := request (Some "MAPK1") None (Some "modulate") in
  let q := {| query_id := "MAPK1"; query_pSite := " ";
              query_rel := "modulates" |} in
  _get_kqml_names (SOURCE c) = Some ["MAPK1"]
  /\ rel_lookup target_rel_map (TYPE c) = Some "modulates"
  /\ fst (respond_find_causality_target demo_CA c initial_world)
     = logged initial_world
         (CA_find_causality_targets q
          :: map (fun r => send (add_provenance r))
               (find_causality_targets demo_CA q))
  /\ snd (respond_find_causality_target demo_CA c initial_world)
     = Raise (KeyError "MODULATES").
Proof.
  intros c q. split; [reflexivity|]. split; [reflexivity|].
  split; [|reflexivity].
  apply (proj1 (discovery_provenance_before_views demo_CA c initial_world
                  "MAPK1" [] "modulates") eq_refl eq_refl).
Defined.


Lemma X14_witness :
  let c1 := {| SOURCE := Some (KQMLAgents ["AKT1"; "BRAF"]);
               TARGET := Some (KQMLAgent "JUND");
               TYPE := None; DIRECTION := Some "both" |} in
  let c2 := request (Some "AKT1") None None in
  _get_kqml_names (SOURCE c1) = Some ("AKT1" :: ["BRAF"])
  /\ _get_kqml_names (SOURCE c2) = Some ("AKT1" :: [])
  /\ respond_dataset_correlated_entity (fun x => x) demo_CA c1 initial_world
     = respond_dataset_correlated_entity (fun x => x) demo_CA c2
         initial_world.
Proof.
  intros c1 c2. split; [reflexivity|]. split; [reflexivity|].
  apply (proj2 (proj2 (handlers_use_the_first_name (fun x => x) demo_CA
                         c1 c2 initial_world "AKT1" ["BRAF"] []))
           eq_refl eq_refl).
Defined.

Lemma X15_witness :
  let c := request None (Some "AKT1") None in
  falsy_arg (SOURCE c) = true
  /\ snd (respond_dataset_correlated_entity (fun x => x) demo_CA c
            initial_world)
     = Ok (FAILURE "MISSING_MECHANISM")
  /\ fst (respond_dataset_correlated_entity (fun x => x) demo_CA c
            initial_world)
     = initial_world.
Proof.
  intros c. split; [reflexivity|]. split.
  - apply (proj2 (proj1 (respond_dataset_correlated_entity_missing_iff
                           (fun x => x) demo_CA c initial_world)) eq_refl).
  - apply (proj2 (respond_dataset_correlated_entity_missing_iff
                    (fun x => x) demo_CA c initial_world) eq_refl).
Defined.

Lemma X18_witness :
  let c := lookup_request (Some ["TP53"]) None (Some ["abc cancer"]) in
  (exists g gs d ds,
     _get_kqml_names (GENE c) = Some (g :: gs)
     /\ _get_kqml_names (DISEASE c) = Some (d :: ds)
     /\ get_tcga_abbr demo_lookup (_sanitize_disase_name d) = None)
  /\ respond_find_mutex demo_lookup c = Plain (FAILURE "INVALID_DISEASE").
Proof.
  intros c.
  assert (H : exists g gs d ds,
             _get_kqml_names (GENE c) = Some (g :: gs)
             /\ _get_kqml_names (DISEASE c) = Some (d :: ds)
             /\ get_tcga_abbr demo_lookup (_sanitize_disase_name d) = None).
  { exists "TP53", [], "abc cancer", []. repeat split; reflexivity. }
  split; [exact H|].
  apply (proj2 (proj1 (proj2 (respond_find_mutex_reasons demo_lookup c))) H).
Defined.

Lemma X19_witness :
  let c1 := lookup_request (Some ["TP53"]) None (Some ["Breast-Cancer"]) in
  let c2 := lookup_request (Some ["TP53"]) None (Some ["breast cancer"]) in
  GENE c1 = GENE c2
  /\ _get_kqml_names (DISEASE c1) = Some ["Breast-Cancer"]
  /\ _get_kqml_names (DISEASE c2) = Some ["breast cancer"]
  /\ _sanitize_disase_name "Breast-Cancer"
     = _sanitize_disase_name "breast cancer"
  /\ respond_find_mutex demo_lookup c1 = respond_find_mutex demo_lookup c2
  /\ respond_find_mutation_significance demo_lookup c1
     = respond_find_mutation_significance demo_lookup c2.
Proof.
  intros c1 c2. repeat (split; [reflexivity|]).
  apply (disease_spelling_does_not_matter demo_lookup c1 c2
           "Breast-Cancer" "breast cancer" [] []
           eq_refl eq_refl eq_refl eq_refl).
Defined.

Lemma X20_witness :
  let c := lookup_request (Some ["TP53"]) None (Some ["breast cancer"]) in
  respond_find_mutation_significance demo_lookup c
  = SUCCESS_mutsig "highly significant"
  /\ "highly significant" <> "".
Proof.
  intros c. split; [reflexivity|].
  apply (proj2 (respond_find_mutation_significance_reasons demo_lookup c)
           "highly significant" eq_refl).
Defined.

Lemma X21_witness :
  let c := lookup_request None (Some ["AKT1"; "MAPK1"]) None in
  falsy_arg (GENES c) = false
  /\ respond_find_cellular_location c = @NameError string "result"
  /\ respond_find_cellular_location_from_names demo_lookup c
     = SUCCESS_components
         [ {| Agent_name := "mitochondrion"; db_refs := ∅ |} ].
Proof.
  intros c. split; [reflexivity|]. split; [|reflexivity].
  apply (proj1 (respond_find_cellular_location_never_answers
                  (Float := string) c) eq_refl).
Defined.

Lemma X22_witness :
  let a := _get_agent_from_gene_name demo_hgnc "EGF" in
  is_Some (db_refs a !! "UP") /\ is_Some (db_refs a !! "HGNC").
Proof.
  intros a.
  assert (H : is_Some (db_refs a !! "UP")) by (exists "P01133"; reflexivity).
  split; [exact H|].
  apply (proj1 (proj2 (proj2 (_get_agent_from_gene_name_refs demo_hgnc
                                "EGF"))) H).
Defined.

Lemma X23_witness :
  let c := lookup_request None (Some ["AKT1"; "BRAF"; "MAPK1"]) None in
  _get_kqml_names (GENES c) = Some ("AKT1" :: ["BRAF"; "MAPK1"])
  /\ find_common_upstreams demo_lookup ["AKT1"; "BRAF"; "MAPK1"] <> []
  /\ exists upstreams,
       respond_find_common_upstreams demo_hgnc demo_lookup c
       = SUCCESS_upstreams upstreams
       /\ map Agent_name upstreams
          = find_common_upstreams demo_lookup ["AKT1"; "BRAF"; "MAPK1"].
Proof.
  intros c.
  assert (H : find_common_upstreams demo_lookup ["AKT1"; "BRAF"; "MAPK1"]
              <> []) by (vm_compute; discriminate).
  split; [reflexivity|]. split; [exact H|].
  apply (proj2 (respond_find_common_upstreams_names demo_hgnc demo_lookup c
                  "AKT1" ["BRAF"; "MAPK1"] eq_refl) H).
Defined.

Lemma X24_witness :
  let c := {| GENE := None; GENES := None; DISEASE := None;
              GENES_plain := Some (PlainStr "AKT1") |} in
  (exists s, GENES_plain c = Some (PlainStr s) /\ s <> "")
  /\ respond_find_cellular_location_from_names demo_lookup c
     = Plain (FAILURE "INVALID_FORMAT").
Proof.
  intros c.
  assert (H : exists s, GENES_plain c = Some (PlainStr s) /\ s <> "").
  { exists "AKT1". split; [reflexivity|discriminate]. }
  split; [exact H|].
  apply (proj2 (proj1 (respond_find_cellular_location_from_names_reasons
                         demo_lookup c)) H).
Defined.

Lemma X25_witness :
  let c := lookup_request (Some ["AKT1"]) None None in
  _get_kqml_names (GENE c) = Some ["AKT1"]
  /\ respond_find_gene_summary demo_lookup c = SUCCESS_geneSummary "".
Proof.
  intros c. split; [reflexivity|].
  apply (proj1 (proj2 (respond_find_gene_summary_always_answers
                         demo_lookup c)) "AKT1" [] eq_refl).
Defined.
